(** * Game-Anime-Recommender: the recommendation core of [app.py]

    A shallow embedding of the functions of [app.py] that rank, normalise and
    enrich catalogue items, together with the properties the specification
    states about them.

    Modelling conventions.
    - A Python [str] is the [string] of its UTF-8 encoding.  [len] counts
      code points.  [lower], [strip] and [split] act on ASCII letters and
      ASCII white space, which is what the Python methods do on ASCII text;
      a theorem whose statement would differ for other text says which text
      it covers.
    - A Python [int] is a [Z]; a Python [float] is a primitive [float].
    - A dynamically typed Python value is a [pyval]; a [dict] with string keys
      is a [gmap string pyval].
    - Code that can raise returns a [result]: [Returns v] or [Raises e].
    - The Python built-ins and library calls whose full behaviour is outside
      the scope of this development ([int] and [float] of a string, [repr] of
      a compound value, [re.compile], the dtype check of the pandas [.str]
      accessor) are the fields of [PyRuntime]; every theorem holds for every
      runtime.
    - A pandas frame is its list of columns and its rows in table order, each
      row with its index label. *)

From Stdlib Require Import ZArith Floats Ascii String List Lia.
From stdpp Require Import base option list gmap strings pretty.

Set Warnings "-register-all,-inexact-float".
Set Default Proof Using "Type".

Local Open Scope Z_scope.

(** ** Python values and exceptions *)

(** The values a record, a table cell or a JSON document holds; [PList]
    stands for a list or a tuple. *)
Inductive pyval : Type :=
  | PNone
  | PBool (b : bool)
  | PInt (z : Z)
  | PFloat (f : float)
  | PStr (s : string)
  | PList (l : list pyval)
  | PDict (d : gmap string pyval).

Inductive exc : Type :=
  | ValueError
  | TypeError
  | OverflowError
  | AttributeError
  | KeyError
  | IndexError
  | ReError.

Inductive result (A : Type) : Type :=
  | Returns (a : A)
  | Raises (e : exc).
Arguments Returns {A} a.
Arguments Raises {A} e.

#[export] Instance result_bind : MBind result := fun A B f m =>
  match m with
  | Returns a => f a
  | Raises e => Raises e
  end.

#[export] Instance result_fmap : FMap result := fun A B f m =>
  match m with
  | Returns a => Returns (f a)
  | Raises e => Raises e
  end.

(** [try: m  except Exception: d] *)
Definition try_or {A} (m : result A) (d : A) : A :=
  match m with
  | Returns a => a
  | Raises _ => d
  end.

(** ** Strings *)

Module Str.

Definition lower_ascii (c : ascii) : ascii :=
  let n := N_of_ascii c in
  if ((65 <=? n) && (n <=? 90))%N then ascii_of_N (n + 32) else c.

(** [s.lower()] on ASCII text: the letters [A] to [Z] change, every other
    byte is kept, also where Python would change a letter that is not
    ASCII. *)
Fixpoint lower (s : string) : string :=
  match s with
  | EmptyString => EmptyString
  | String c r => String (lower_ascii c) (lower r)
  end.

(** The ASCII characters [str.strip], [str.split] and the pattern [\s]
    treat as white space: tab, line feed, vertical tab, form feed, carriage
    return, the four separators 0x1c-0x1f and the space.  The white space
    that is not ASCII is listed in [wide_spaces]. *)
Definition is_space (c : ascii) : bool :=
  let n := N_of_ascii c in
  (((9 <=? n) && (n <=? 13)) || ((28 <=? n) && (n <=? 32)))%N.

Fixpoint lstrip (s : string) : string :=
  match s with
  | EmptyString => EmptyString
  | String c r => if is_space c then lstrip r else s
  end.

Fixpoint rstrip (s : string) : string :=
  match s with
  | EmptyString => EmptyString
  | String c r =>
      match rstrip r with
      | EmptyString => if is_space c then EmptyString else String c EmptyString
      | r' => String c r'
      end
  end.

(** [s.strip()] *)
Definition strip (s : string) : string := rstrip (lstrip s).

(** [s.startswith(p)] *)
Fixpoint startswith (s p : string) : bool :=
  match p, s with
  | EmptyString, _ => true
  | String a p', String b s' => if Ascii.eqb a b then startswith s' p' else false
  | String _ _, EmptyString => false
  end.

(** [needle in hay] *)
Fixpoint contains (hay needle : string) : bool :=
  startswith hay needle ||
  match hay with
  | EmptyString => false
  | String _ hay' => contains hay' needle
  end.

(** A byte 10xxxxxx continues a code point of two bytes or more. *)
Definition is_continuation (c : ascii) : bool :=
  let n := N_of_ascii c in ((128 <=? n) && (n <? 192))%N.

(** The number of code points: every byte that is no continuation byte
    starts one. *)
Fixpoint chars (s : string) : nat :=
  match s with
  | EmptyString => 0
  | String c r => (if is_continuation c then 0 else 1) + chars r
  end.

(** [len(s)] *)
Definition len (s : string) : Z := Z.of_nat (chars s).

(** [s.isascii()] *)
Fixpoint is_ascii (s : string) : bool :=
  match s with
  | EmptyString => true
  | String c r => (N_of_ascii c <? 128)%N && is_ascii r
  end.

(** The UTF-8 encodings of the white space that is not ASCII: U+0085,
    U+00A0, U+1680, U+2000 to U+200A, U+2028, U+2029, U+202F, U+205F and
    U+3000. *)
Definition wide_spaces : list string :=
  (fun bytes => string_of_list_ascii (ascii_of_N <$> bytes)) <$>
  ([[194; 133]; [194; 160]; [225; 154; 128]] ++
   ((fun b => [226; 128; b]) <$> [128; 129; 130; 131; 132; 133; 134; 135; 136; 137; 138]) ++
   [[226; 128; 168]; [226; 128; 169]; [226; 128; 175]; [226; 129; 159]; [227; 128; 128]])%N.

(** [s] holds no white space but ASCII's, so that [strip], [split] and the
    pattern [\s] see all the white space of [s]. *)
Definition ascii_spaces_only (s : string) : bool :=
  forallb (fun wide => negb (contains s wide)) wide_spaces.

(** [s.split()]: the maximal runs of characters that are not white space;
    [cur] is the run being read, in reverse. *)
Fixpoint split_go (s : string) (cur : list ascii) : list string :=
  let flush rest :=
    match cur with
    | [] => rest
    | _ => string_of_list_ascii (rev cur) :: rest
    end in
  match s with
  | EmptyString => flush []
  | String c r => if is_space c then flush (split_go r []) else split_go r (c :: cur)
  end.

Definition split (s : string) : list string := split_go s [].

End Str.

(** ** The rating scale of the game domain *)

(** Truth value of a Python object: [bool(v)]. *)
Definition truthy (v : pyval) : bool :=
  match v with
  | PNone => false
  | PBool b => b
  | PInt z => negb (z =? 0)
  | PFloat f => negb (PrimFloat.eqb f 0)
  | PStr s => negb (String.eqb s "")
  | PList l => match l with [] => false | _ => true end
  | PDict d => negb (bool_decide (d = ∅))
  end.

(** [_convert_game_rating] on a string that is not empty: the ladder of
    substring tests, in the order of the source. *)
Definition rating_ladder (rating_str : string) : float :=
  let rating_str := Str.lower rating_str in
  if Str.contains rating_str "very positive" then 5.0%float
  else if Str.contains rating_str "positive" then 4.0%float
  else if Str.contains rating_str "mixed" then 3.0%float
  else if Str.contains rating_str "negative" then 2.0%float
  else if Str.contains rating_str "very negative" then 1.0%float
  else 0.0%float.

(** [_convert_game_rating(rating_str)].  The callers pass whatever the rating
    cell holds: a falsy value gives 0.0, a string goes down the ladder, and
    any other value has no [lower] method. *)
Definition _convert_game_rating (rating_str : pyval) : result float :=
  if negb (truthy rating_str) then Returns 0.0%float
  else match rating_str with
       | PStr s => Returns (rating_ladder s)
       | _ => Raises AttributeError
       end.

(** ** Built-in conversions *)

Class PyRuntime : Type := {
  (** [int(s)] for a string [s] *)
  int_of_str : string → result Z;
  (** [float(s)] for a string [s] *)
  float_of_str : string → result float;
  (** [str(v)] for a float, a list or a dict [v] *)
  repr_of : pyval → string;
  (** [re.compile(pattern)]: the [search] predicate of the compiled pattern,
      or [re.error] *)
  re_compile : string → result (string → bool);
  (** whether pandas accepts the [.str] accessor on a column with these
      cells; it raises [AttributeError] when the column does not hold
      strings *)
  str_accessor_ok : list pyval → bool;
}.

(** [float(n)] for an int: rounded to the nearest double; [OverflowError]
    beyond the range of doubles. *)
Definition float_of_int (n : Z) : result float :=
  let f := SF2Prim (binary_normalize prec emax n 0 false) in
  if PrimFloat.is_infinity f then Raises OverflowError else Returns f.

(** [int(f)] for a float: truncation towards zero. *)
Definition int_of_float (f : float) : result Z :=
  match Prim2SF f with
  | S754_zero _ => Returns 0
  | S754_finite s m e =>
      let a := Z.shiftl (Z.pos m) e in
      Returns (if s then - a else a)
  | S754_infinity _ => Raises OverflowError
  | S754_nan => Raises ValueError
  end.

Section Builtins.
Context `{rt : PyRuntime}.

(** [str(v)] *)
Definition py_str (v : pyval) : string :=
  match v with
  | PStr s => s
  | PInt z => pretty z
  | PBool true => "True"
  | PBool false => "False"
  | PNone => "None"
  | _ => repr_of v
  end.

(** [int(v)] *)
Definition py_int (v : pyval) : result Z :=
  match v with
  | PInt z => Returns z
  | PBool b => Returns (if b then 1 else 0)
  | PFloat f => int_of_float f
  | PStr s => int_of_str s
  | PNone | PList _ | PDict _ => Raises TypeError
  end.

(** [float(v)] *)
Definition py_float (v : pyval) : result float :=
  match v with
  | PFloat f => Returns f
  | PInt z => float_of_int z
  | PBool b => Returns (if b then 1.0%float else 0.0%float)
  | PStr s => float_of_str s
  | PNone | PList _ | PDict _ => Raises TypeError
  end.

End Builtins.

(** [a or b] *)
Definition py_or (a b : pyval) : pyval := if truthy a then a else b.
Infix "`or`" := py_or (at level 50, left associativity).

(** [obj.get(key)] on a dict *)
Definition dict_get (obj : gmap string pyval) (key : string) : pyval :=
  default PNone (obj !! key).

(** [obj.get(key, dflt)] on a dict or on a row of a frame *)
Definition dict_get_or (obj : gmap string pyval) (key : string) (dflt : pyval) : pyval :=
  default dflt (obj !! key).

(** [isinstance(v, str) and v.startswith("http")] *)
Definition is_http_str (v : pyval) : bool :=
  match v with
  | PStr s => Str.startswith s "http"
  | _ => false
  end.

(** [s.isdigit()] *)
Definition isdigit (s : string) : bool :=
  negb (String.eqb s "") &&
  forallb (fun c => let n := N_of_ascii c in ((48 <=? n) && (n <=? 57))%N)
          (list_ascii_of_string s).

(** [", ".join(xs)]: every element must be a string. *)
Fixpoint join_comma (xs : list pyval) : result string :=
  match xs with
  | [] => Returns ""
  | [PStr s] => Returns s
  | PStr s :: rest => r ← join_comma rest; Returns (s +:+ ", " +:+ r)
  | _ :: _ => Raises TypeError
  end.

(** ** Canonical items *)

Record metadata : Type := {
  genre : pyval;
  year : option Z;
  popularity : Z;
  (** [None] when the dict has no ["price"] key *)
  price : option pyval;
  (** [None] when the dict has no ["similarity"] key *)
  similarity : option float;
}.

Record item : Type := {
  id : string;
  title : string;
  image_url : pyval;
  rating : float;
  type : string;
  meta : metadata;
}.

(** The markers of the titles the normalizer refuses.  They are ASCII, and
    the only characters outside ASCII that Python lower-cases into an ASCII
    letter are U+0130, which gives an [i] followed by U+0307, and U+212A,
    which gives a [k]: none of them can complete a marker, so that
    lower-casing the letters [A] to [Z] finds the markers in the titles in
    which Python finds them. *)
Definition forbidden_markers : list string :=
  ["pandas.core"; "numpy.core"; "dataframe"; "series"; "dtype"; "ndarray"; "index"].

Definition steam_header (app_id : string) : string :=
  "https://cdn.akamai.steamstatic.com/steam/apps/" +:+ app_id +:+ "/header.jpg".

Section Normalizer.
Context `{rt : PyRuntime}.

(** The [title] of [_coerce_record], before [str(title)]. *)
Definition record_title (obj : gmap string pyval) (idx : Z) : pyval :=
  dict_get obj "title" `or` dict_get obj "name" `or` dict_get obj "Name" `or`
  dict_get obj "app_name" `or` dict_get obj "anime" `or` dict_get obj "game" `or`
  PStr (py_str (dict_get obj "Name" `or` dict_get obj "Title" `or`
                PStr ("Item " +:+ pretty idx))).

(** The [image_url] of [_coerce_record] once the Steam header has been
    inferred, before the final check. *)
Definition record_image_url (obj : gmap string pyval) : pyval :=
  let image_url :=
    dict_get obj "image_url" `or` dict_get obj "img_url" `or` dict_get obj "poster" `or`
    dict_get obj "header_image" `or` dict_get obj "thumbnail" `or` dict_get obj "Image URL" in
  let app_id := dict_get obj "app_id" `or` dict_get obj "appid" `or` dict_get obj "appId" in
  if (negb (truthy image_url) || negb (is_http_str image_url)) && truthy app_id then
    try_or (n ← py_int app_id; Returns (PStr (steam_header (pretty n)))) image_url
  else image_url.

(** [_coerce_record(obj, item_type, idx)]: [Returns None] is the Python
    [None] of a refused record. *)
Definition _coerce_record (obj : gmap string pyval) (item_type : string) (idx : Z)
    : result (option item) :=
  let title := record_title obj idx in
  let rating :=
    dict_get obj "rating" `or` dict_get obj "score" `or` dict_get obj "avg_rating" `or`
    dict_get obj "Rating" `or` PFloat 0.0 in
  let genre :=
    dict_get obj "genre" `or` dict_get obj "genres" `or` dict_get obj "tags" `or`
    dict_get obj "Genres" `or` PStr "" in
  let year :=
    dict_get obj "year" `or` dict_get obj "release_year" `or` dict_get obj "aired" `or` PNone in
  let popularity :=
    dict_get obj "popularity" `or` dict_get obj "pop" `or` dict_get obj "rank" `or`
    dict_get obj "Popularity" `or` dict_get obj "user_reviews" `or` PInt 0 in
  let price :=
    dict_get obj "price" `or` dict_get obj "final_price" `or` dict_get obj "price_final" `or`
    PNone in
  (* Sanitize types *)
  let rating :=
    try_or (if String.eqb item_type "game" then _convert_game_rating rating
            else py_float rating) 0.0%float in
  let year :=
    try_or (match year with
            | PNone => Returns None
            | _ => if isdigit (py_str year) then Some <$> py_int year else Returns None
            end) None in
  let popularity := try_or (py_int popularity) 0 in
  (* Games: infer Steam header if app id present *)
  let image_url := record_image_url obj in
  (* Validate title *)
  let title_str := py_str title in
  if (300 <? Str.len title_str) ||
     existsb (fun k => Str.contains (Str.lower title_str) k) forbidden_markers
  then Returns None
  else
    g ← match genre with
        | PList xs => join_comma xs
        | _ => Returns (py_str (genre `or` PStr ""))
        end;
    Returns (Some {|
      id := py_str (dict_get obj "id" `or` dict_get obj "app_id" `or`
                    dict_get obj "anime_id" `or` PStr ("pop-" +:+ pretty idx));
      title := title_str;
      image_url := if is_http_str image_url then image_url else PNone;
      rating := rating;
      type := item_type;
      meta := {| genre := PStr g; year := year; popularity := popularity;
                 price := Some price; similarity := None |}
    |}).

(** The comprehension of [create_app] over the records of a popularity
    artifact, which keeps [_coerce_record(rec, item_type, i)] for every
    record that is not refused; [i] is the index of the first record. *)
Fixpoint coerce_records (item_type : string) (i : Z) (records : list (gmap string pyval))
    : result (list item) :=
  match records with
  | [] => Returns []
  | rec :: rest =>
      shaped ← _coerce_record rec item_type i;
      shaped_rest ← coerce_records item_type (i + 1) rest;
      Returns (match shaped with
               | Some it => it :: shaped_rest
               | None => shaped_rest
               end)
  end.

End Normalizer.

(** ** The image cache *)

(** [_normalize_anime_title_for_search] *)
Module Search.

(** [re.sub(r"[\u0000-\u001f]", " ", t)] *)
Fixpoint blank_controls (t : string) : string :=
  match t with
  | EmptyString => EmptyString
  | String c r =>
      String (if (N_of_ascii c <? 32)%N then " "%char else c) (blank_controls r)
  end.

(** [t.replace(old, new)] for a pattern [old] that is not empty; [skip]
    counts the characters of a replaced occurrence still to be dropped. *)
Fixpoint replace_go (old new t : string) (skip : nat) : string :=
  match t with
  | EmptyString => EmptyString
  | String c r =>
      match skip with
      | S k => replace_go old new r k
      | O =>
          if Str.startswith t old
          then new +:+ replace_go old new r (String.length old - 1)
          else String c (replace_go old new r 0)
      end
  end.

Definition replace (t old new : string) : string := replace_go old new t 0.

(** [re.sub(r"\s+", " ", t)] *)
Fixpoint collapse_spaces (t : string) (in_run : bool) : string :=
  match t with
  | EmptyString => EmptyString
  | String c r =>
      if Str.is_space c
      then if in_run then collapse_spaces r true
           else String " " (collapse_spaces r true)
      else String c (collapse_spaces r false)
  end.

(** [t.split(sep)[0]] for a separator that is not empty *)
Fixpoint before (t sep : string) : string :=
  match t with
  | EmptyString => EmptyString
  | String c r => if Str.startswith t sep then EmptyString else String c (before r sep)
  end.

Definition separators : list string := [" - "; ":"; "—"; "–"; "|"; "/"].

Fixpoint cut (seps : list string) (t : string) : string :=
  match seps with
  | [] => t
  | sep :: rest =>
      if Str.contains t sep && (40 <? Str.len t) then before t sep else cut rest t
  end.

Definition _normalize_anime_title_for_search (t : string) : string :=
  let t := blank_controls t in
  let t := replace (replace t "☆" " ") "★" " " in
  let t := Str.strip (collapse_spaces t false) in
  cut separators t.

End Search.

(** What [requests.get] does: it raises, or it returns a response with its
    [ok] flag and what [r.json()] gives. *)
Inductive http_outcome : Type :=
  | NetRaises
  | NetResponse (ok : bool) (json : result pyval).

(** The process-wide state the image lookup reads and writes. *)
Record world : Type := {
  (** the dict [ANIME_IMG_CACHE] *)
  ANIME_IMG_CACHE : gmap string string;
  (** the [q] parameter of every [requests.get] issued so far, latest first *)
  requests_issued : list string;
  (** how many times [_persist_anime_cache_async] was called *)
  saves_scheduled : nat;
}.

(** [v.get(key)]: [v] must be a dict. *)
Definition py_get (v : pyval) (key : string) : result pyval :=
  match v with
  | PDict d => Returns (dict_get d key)
  | _ => Raises AttributeError
  end.

(** [data[0]] *)
Definition py_first (data : pyval) : result pyval :=
  match data with
  | PList (x :: _) => Returns x
  | PList [] => Raises IndexError
  | PStr (String c _) => Returns (PStr (String c EmptyString))
  | PStr EmptyString => Raises IndexError
  | PDict _ => Raises KeyError
  | _ => Raises TypeError
  end.

(** The body of [if r.ok:] up to the test of [url]: the image URL the
    response holds, [PNone] when it has no entry. *)
Definition response_url (json : result pyval) : result pyval :=
  js ← json;
  data ← py_get (js `or` PDict ∅) "data";
  let data := data `or` PList [] in
  if truthy data then
    first ← py_first data;
    images ← py_get first "images";
    jpg ← py_get (images `or` PDict ∅) "jpg";
    let jpg := jpg `or` PDict ∅ in
    large ← py_get jpg "large_image_url";
    medium ← py_get jpg "image_url";
    small ← py_get jpg "small_image_url";
    Returns (large `or` medium `or` small)
  else Returns PNone.

Section ImageCache.
(** [requests is not None] *)
Variable requests : bool.
(** The remote service: the outcome of the [n]-th request of the process,
    for the query it carries. *)
Variable jikan : nat → string → http_outcome.

(** [_get_anime_image_url(title)] *)
Definition _get_anime_image_url (title : string) (w : world) : option string * world :=
  if String.eqb title "" then (None, w)
  else
    let key := Str.strip title in
    match ANIME_IMG_CACHE w !! key with
    | Some url => (Some url, w)
    | None =>
        if negb requests then (None, w)
        else
          let norm := Search._normalize_anime_title_for_search key in
          let q := if String.eqb norm "" then key else norm in
          let w1 := {| ANIME_IMG_CACHE := ANIME_IMG_CACHE w;
                       requests_issued := q :: requests_issued w;
                       saves_scheduled := saves_scheduled w |} in
          match jikan (length (requests_issued w)) q with
          | NetRaises => (None, w1)
          | NetResponse ok json =>
              if ok then
                match response_url json with
                | Returns (PStr url) =>
                    if Str.startswith url "http" then
                      (Some url,
                       {| ANIME_IMG_CACHE := <[key := url]> (ANIME_IMG_CACHE w1);
                          requests_issued := requests_issued w1;
                          saves_scheduled := S (saves_scheduled w1) |})
                    else (None, w1)
                | _ => (None, w1)
                end
              else (None, w1)
          end
    end.

(** Two calls in sequence, as a caller makes them. *)
Definition resolve_twice (title : string) (w : world)
    : option string * option string * world :=
  let '(r1, w1) := _get_anime_image_url title w in
  let '(r2, w2) := _get_anime_image_url title w1 in
  (r1, r2, w2).

End ImageCache.

(** ** Frames *)

Record DataFrame : Type := {
  columns : list string;
  (** the rows in table order, with their index labels *)
  rows : list (Z * gmap string pyval);
}.

(** [item[col]]; a row that lacks the cell reads as a missing value. *)
Definition cell (it : gmap string pyval) (col : string) : pyval :=
  default (PFloat nan) (it !! col).

(** [data[col]] *)
Definition column (data : DataFrame) (col : string) : list pyval :=
  (fun r => cell r.2 col) <$> rows data.

(** [xs[:n]] and [frame.head(n)]: a negative [n] drops from the end. *)
Definition py_take {A} (n : Z) (xs : list A) : list A :=
  if 0 <=? n then take (Z.to_nat n) xs
  else take (Z.to_nat (Z.of_nat (length xs) + n)) xs.

(** [frame.iloc[i]] *)
Definition iloc {A} (xs : list A) (i : Z) : result A :=
  let n := Z.of_nat (length xs) in
  let j := if i <? 0 then n + i else i in
  if (0 <=? j) && (j <? n) then
    match xs !! Z.to_nat j with
    | Some x => Returns x
    | None => Raises IndexError
    end
  else Raises IndexError.

(** [pd.notna(v)] *)
Definition notna (v : pyval) : bool :=
  match v with
  | PNone => false
  | PFloat f => negb (PrimFloat.is_nan f)
  | _ => true
  end.

(** [len(xs)] *)
Definition len {A} (xs : list A) : Z := Z.of_nat (length xs).

(** The artifact stored under ["popular"]: a sequence of titles, or a frame. *)
Inductive popular_artifact : Type :=
  | PopNames (names : list string)
  | PopFrame (frame : DataFrame).

(** One entry of [TRAINED_MODELS]; [None] stands for a key that is absent or
    holds [None]. *)
Record model : Type := {
  popular : option popular_artifact;
  data : option DataFrame;
}.

Definition title_columns : list string := ["Name"; "name"; "title"; "Title"].
Definition rating_columns : list string := ["Rating"; "rating"; "score"; "Score"; "avg_rating"].

Section Recommender.
Context `{rt : PyRuntime}.
Variable TRAINED_MODELS : gmap string model.

(** The rating loop of the anime items: the first rating column whose cell
    converts; [ValueError] and [TypeError] move on to the next column. *)
Fixpoint anime_rating (cols : list string) (it : gmap string pyval) : result float :=
  match cols with
  | [] => Returns 0.0%float
  | rating_col :: rest =>
      match it !! rating_col with
      | None => anime_rating rest it
      | Some rating_val =>
          if notna rating_val &&
             negb (match rating_val with PStr s => String.eqb s "" | _ => false end)
          then match py_float rating_val with
               | Returns f => Returns f
               | Raises ValueError | Raises TypeError => anime_rating rest it
               | Raises e => Raises e
               end
          else anime_rating rest it
      end
  end.

(** [_format_item(item, item_type, col, idx)] *)
Definition _format_item (it : gmap string pyval) (item_type col : string) (idx : Z)
    : result item :=
  if String.eqb item_type "anime" then
    rating ← anime_rating rating_columns it;
    pop ← py_int (dict_get_or it "Popularity" (PInt 0));
    Returns {|
      id := py_str (dict_get_or it "anime_id" (PStr ("anime-" +:+ pretty idx)));
      title := py_str (cell it col);
      image_url := dict_get it "Image URL";
      rating := rating;
      type := "anime";
      meta := {| genre := dict_get_or it "Genres" (PStr ""); year := None;
                 popularity := pop; price := None; similarity := Some 0.8%float |}
    |}
  else
    rating ← _convert_game_rating (dict_get_or it "rating" (PInt 0));
    pop ← py_int (dict_get_or it "user_reviews" (PInt 0));
    Returns {|
      id := py_str (dict_get_or it "app_id" (PStr ("game-" +:+ pretty idx)));
      title := py_str (cell it col);
      image_url := PStr (steam_header (py_str (dict_get_or it "app_id" (PStr "0"))));
      rating := rating;
      type := "game";
      meta := {| genre := PStr ""; year := None; popularity := pop;
                 price := Some (dict_get it "price_final"); similarity := Some 0.8%float |}
    |}.

(** *** Popular items *)

(** [data[data[col] == anime_name]] *)
Definition rows_named (data : DataFrame) (col anime_name : string)
    : list (Z * gmap string pyval) :=
  List.filter (fun r => match cell r.2 col with
                        | PStr s => String.eqb s anime_name
                        | _ => false
                        end) (rows data).

(** The loop that looks a popular title up in the table: the rows of the
    first title column that has some, else what the last column gave. *)
Fixpoint anime_match (data : DataFrame) (cols : list string) (anime_name : string)
    (last : option (list (Z * gmap string pyval))) : option (list (Z * gmap string pyval)) :=
  match cols with
  | [] => last
  | col :: rest =>
      if bool_decide (col ∈ columns data) then
        match rows_named data col anime_name with
        | [] => anime_match data rest anime_name (Some [])
        | found => Some found
        end
      else anime_match data rest anime_name last
  end.

(** The body of the loop of the anime branch of [_get_popular_items]: the
    item it appends, if any. *)
Definition popular_anime_item (data : option DataFrame) (i : Z) (anime_name : string)
    : result (option item) :=
  match data with
  | None => Raises AttributeError
  | Some data =>
      match anime_match data title_columns anime_name None with
      | Some ((_, anime_info) :: _) =>
          rating ← anime_rating rating_columns anime_info;
          pop ← py_int (dict_get_or anime_info "Popularity" (PInt 0));
          Returns (Some {|
            id := py_str (dict_get_or anime_info "anime_id" (PStr ("anime-" +:+ pretty i)));
            title := anime_name;
            image_url := dict_get anime_info "Image URL";
            rating := rating;
            type := "anime";
            meta := {| genre := dict_get_or anime_info "Genres" (PStr ""); year := None;
                       popularity := pop; price := None; similarity := Some 0.5%float |}
          |})
      | _ => Returns None
      end
  end.

(** [for i, anime_name in enumerate(...)]: an iteration that raises is
    skipped. *)
Fixpoint popular_anime (data : option DataFrame) (i : Z) (names : list string) : list item :=
  match names with
  | [] => []
  | anime_name :: rest =>
      match popular_anime_item data i anime_name with
      | Returns (Some it) => it :: popular_anime data (i + 1) rest
      | _ => popular_anime data (i + 1) rest
      end
  end.

(** The body of the loop of the game branch. *)
Definition popular_game_item (data : option DataFrame) (idx : Z) : result item :=
  match data with
  | None => Raises AttributeError
  | Some data =>
      '(_, game_info) ← iloc (rows data) idx;
      let title :=
        py_str (dict_get_or game_info "title"
                 (dict_get_or game_info "Title"
                   (dict_get_or game_info "name"
                     (dict_get_or game_info "Name" (PStr ("Game " +:+ pretty idx)))))) in
      rating ← _convert_game_rating (dict_get_or game_info "rating" (PInt 0));
      pop ← py_int (dict_get_or game_info "user_reviews" (PInt 0));
      Returns {|
        id := py_str (dict_get_or game_info "app_id" (PStr ("game-" +:+ pretty idx)));
        title := title;
        image_url :=
          PStr (steam_header (py_str (dict_get_or game_info "app_id" (PStr "0"))));
        rating := rating;
        type := "game";
        meta := {| genre := PStr ""; year := None; popularity := pop;
                   price := Some (dict_get game_info "price_final");
                   similarity := Some 0.5%float |}
      |}
  end.

Fixpoint popular_game (data : option DataFrame) (labels : list Z) : list item :=
  match labels with
  | [] => []
  | idx :: rest =>
      match popular_game_item data idx with
      | Returns it => it :: popular_game data rest
      | Raises _ => popular_game data rest
      end
  end.

(** [_get_popular_items(item_type, limit)].  Iterating a frame yields its
    column labels; a sequence of titles has no [head]. *)
Definition _get_popular_items (item_type : string) (limit : Z) : list item :=
  if String.eqb item_type "anime" then
    match TRAINED_MODELS !! "anime" with
    | Some m =>
        match popular m with
        | Some (PopNames names) => popular_anime (data m) 0 (py_take limit names)
        | Some (PopFrame frame) => popular_anime (data m) 0 (columns frame)
        | None => []
        end
    | None => []
    end
  else if String.eqb item_type "game" then
    match TRAINED_MODELS !! "game" with
    | Some m =>
        match popular m with
        | Some (PopFrame frame) => popular_game (data m) (fst <$> py_take limit (rows frame))
        | Some (PopNames _) => []
        | None => []
        end
    | None => []
    end
  else [].

(** *** The tiered matcher *)

(** [any(r['title'] == t for r in results)] *)
Definition has_title (results : list item) (t : string) : bool :=
  existsb (fun r => String.eqb (title r) t) results.

(** The rows a boolean mask over the lower-cased title column selects; a
    cell that is not a string is never selected. *)
Definition select (data : DataFrame) (col : string) (test : string → bool)
    : list (Z * gmap string pyval) :=
  List.filter (fun r => match cell r.2 col with
                        | PStr s => test (Str.lower s)
                        | _ => false
                        end) (rows data).

(** Strategy 1: every row of [matches] is appended. *)
Fixpoint add_exact (item_type col : string) (matches : list (Z * gmap string pyval))
    (results : list item) : result (list item) :=
  match matches with
  | [] => Returns results
  | (idx, it) :: rest =>
      r ← _format_item it item_type col idx;
      add_exact item_type col rest (results ++ [r])
  end.

(** Strategies 2 to 4: stop at [limit] results, skip a title already
    present. *)
Fixpoint add_matches (limit : Z) (item_type col : string)
    (matches : list (Z * gmap string pyval)) (results : list item) : result (list item) :=
  match matches with
  | [] => Returns results
  | (idx, it) :: rest =>
      if limit <=? len results then Returns results
      else if has_title results (py_str (cell it col))
      then add_matches limit item_type col rest results
      else
        r ← _format_item it item_type col idx;
        add_matches limit item_type col rest (results ++ [r])
  end.

(** Strategy 4, word by word. *)
Fixpoint add_words (data : DataFrame) (limit : Z) (item_type col : string)
    (words : list string) (results : list item) : result (list item) :=
  match words with
  | [] => Returns results
  | word :: rest =>
      if 3 <=? Str.len word then
        search ← re_compile ("\b" +:+ word +:+ "\b");
        results ← add_matches limit item_type col
                    (py_take (limit / 4) (select data col search)) results;
        add_words data limit item_type col rest results
      else add_words data limit item_type col rest results
  end.

(** The four strategies on the title column [col]. *)
Definition run_tiers (data : DataFrame) (col title_lower item_type : string) (limit : Z)
    : result (list item) :=
  (* Strategy 1: exact matches *)
  results ← add_exact item_type col
              (py_take limit (select data col (String.eqb title_lower))) [];
  (* Strategy 2: starts with *)
  results ← add_matches limit item_type col
              (py_take (limit / 2)
                 (select data col (fun t => Str.startswith t title_lower))) results;
  (* Strategy 3: contains, for queries of 4 characters or more *)
  results ← (if 4 <=? Str.len title_lower then
               add_matches limit item_type col
                 (py_take (limit / 3)
                    (select data col (fun t => Str.contains t title_lower))) results
             else Returns results);
  (* Strategy 4: word boundaries, for queries of several words *)
  let words := Str.split title_lower in
  if 1 <? len words then add_words data limit item_type col words results
  else Returns results.

(** The title column the matcher searches: the first of [title_columns] the
    table has. *)
Definition title_column (data : DataFrame) : option string :=
  List.find (fun col => bool_decide (col ∈ columns data)) title_columns.

(** The value of [results] when the loop over the title columns is left.
    The [.str] accessor raises on a column that does not hold strings. *)
Definition tier_results (data : DataFrame) (title_lower item_type : string) (limit : Z)
    : result (list item) :=
  match title_column data with
  | None => Returns []
  | Some col =>
      if negb (str_accessor_ok (column data col)) then Raises AttributeError
      else run_tiers data col title_lower item_type limit
  end.

(** The loop that appends popular items. *)
Fixpoint pad_loop (limit : Z) (popular_items results : list item)
    (existing_titles : gset string) : list item :=
  match popular_items with
  | [] => results
  | it :: rest =>
      let fresh := bool_decide (title it ∉ existing_titles) in
      let results := if fresh then results ++ [it] else results in
      let existing_titles :=
        if fresh then {[title it]} ∪ existing_titles else existing_titles in
      if limit <=? len results then results
      else pad_loop limit rest results existing_titles
  end.

(** [if len(results) < limit: ...] *)
Definition pad_popular (item_type : string) (limit : Z) (results : list item) : list item :=
  if len results <? limit then
    let popular_items := _get_popular_items item_type (limit - len results) in
    pad_loop limit popular_items results (list_to_set (title <$> results))
  else results.

(** [_get_recommendations_from_trained_model(title, item_type, limit)] *)
Definition _get_recommendations_from_trained_model
    (title item_type : string) (limit : Z) : list item :=
  match TRAINED_MODELS !! item_type with
  | None => []
  | Some models =>
      match data models with
      | None => []
      | Some data =>
          let title_lower := Str.strip (Str.lower title) in
          if String.eqb title_lower "" then _get_popular_items item_type limit
          else
            match tier_results data title_lower item_type limit with
            | Returns results => py_take limit (pad_popular item_type limit results)
            | Raises _ => _get_popular_items item_type limit
            end
      end
  end.

(** *** The request handlers *)

(** [payload.get(key, dflt)] *)
Definition py_get_or (v : pyval) (key : string) (dflt : pyval) : result pyval :=
  match v with
  | PDict d => Returns (dict_get_or d key dflt)
  | _ => Raises AttributeError
  end.

(** [int(payload.get("limit", 25))] of [api_recommend] *)
Definition requested_limit (body : result pyval) : result Z :=
  js ← body;
  l ← py_get_or (js `or` PDict ∅) "limit" (PInt 25);
  py_int l.

(** [limit = 12 if limit == 12 else min(max(limit, 1), 50)] *)
Definition effective_limit (limit : Z) : Z :=
  if limit =? 12 then 12 else Z.min (Z.max limit 1) 50.

(** The first lines of [api_recommend]: the title, the type and the limit
    the handler goes on with; [body] is what [request.get_json] gives. *)
Definition recommend_args (body : result pyval) : result (string * string * Z) :=
  js ← body;
  let payload := js `or` PDict ∅ in
  t ← py_get_or payload "title" (PStr "");
  ty ← py_get_or payload "type" (PStr "");
  limit ← requested_limit body;
  Returns (Str.strip (py_str t), Str.lower (Str.strip (py_str ty)), effective_limit limit).

Inductive response : Type :=
  | Ok200 (shaped : list item)
  | BadRequest400
  | ServerError500.

(** [api_recommend] *)
Definition api_recommend (body : result pyval) : response :=
  match recommend_args body with
  | Raises _ => ServerError500
  | Returns (title, rec_type, limit) =>
      if String.eqb title "" || negb (String.eqb rec_type "anime" || String.eqb rec_type "game")
      then BadRequest400
      else Ok200 (_get_recommendations_from_trained_model title rec_type limit)
  end.

(** [api_search_recommendations]: the limit is passed on as it comes. *)
Definition api_search_recommendations (body : result pyval) : response :=
  match (js ← body;
         let payload := js `or` PDict ∅ in
         q ← py_get_or payload "query" (PStr "");
         ty ← py_get_or payload "type" (PStr "");
         l ← py_get_or payload "limit" (PInt 12);
         limit ← py_int l;
         Returns (Str.strip (py_str q), Str.lower (Str.strip (py_str ty)), limit)) with
  | Raises _ => ServerError500
  | Returns (query, item_type, limit) =>
      if String.eqb query "" ||
         negb (String.eqb item_type "anime" || String.eqb item_type "game")
      then BadRequest400
      else Ok200 (_get_recommendations_from_trained_model query item_type limit)
  end.

End Recommender.

(** ** The handlers over the lists built at start-up *)

(** The [data] and the [total] of a JSON answer. *)
Record listing : Type := {
  listing_data : list item;
  listing_total : Z;
}.

(** [api_anime_search(query)]; [anime_popular] is the list [create_app]
    built. *)
Definition api_anime_search (anime_popular : list item) (query : string) : listing :=
  let q := Str.lower (Str.strip query) in
  let results :=
    List.filter (fun i => Str.contains (Str.lower (title i)) q) anime_popular in
  {| listing_data := py_take 50 results; listing_total := len results |}.

(** [api_games_search(query)] *)
Definition api_games_search (game_popular : list item) (query : string) : listing :=
  let q := Str.lower (Str.strip query) in
  let results :=
    List.filter (fun i => Str.contains (Str.lower (title i)) q) game_popular in
  {| listing_data := py_take 50 results; listing_total := len results |}.

(** [api_games_popular()] *)
Definition api_games_popular (game_popular : list item) : listing :=
  let data := py_take 25 game_popular in
  {| listing_data := data; listing_total := len data |}.

(** [item["image_url"] = url] *)
Definition set_image_url (it : item) (url : pyval) : item :=
  {| id := id it; title := title it; image_url := url; rating := rating it;
     type := type it; meta := meta it |}.

Section Enrichment.
Variable requests : bool.
Variable jikan : nat → string → http_outcome.

(** The first loop of [api_anime_popular]: an item without an image gets
    the URL [_get_anime_image_url] finds for its title, if any. *)
Fixpoint enrich_images (data : list item) (w : world) : list item * world :=
  match data with
  | [] => ([], w)
  | it :: rest =>
      if truthy (image_url it) then
        let '(rest, w) := enrich_images rest w in (it :: rest, w)
      else
        let '(url, w) := _get_anime_image_url requests jikan (title it) w in
        let it :=
          match url with
          | Some url => if String.eqb url "" then it else set_image_url it (PStr url)
          | None => it
          end in
        let '(rest, w) := enrich_images rest w in (it :: rest, w)
  end.

(** [api_anime_popular()].  The slice [anime_popular[:25]] shares its dicts
    with [anime_popular], so the images the loop fills in stay in the list:
    the second component is [anime_popular] after the request. *)
Definition api_anime_popular (anime_popular : list item) (w : world)
    : listing * list item * world :=
  let '(data, w) := enrich_images (py_take 25 anime_popular) w in
  ({| listing_data := data; listing_total := len data |},
   data ++ drop 25 anime_popular, w).

End Enrichment.

(** ** The properties, as the specification words them *)

(** [image_url] is null or a string that starts with [http]. *)
Definition image_ok (v : pyval) : bool :=
  match v with
  | PNone => true
  | _ => is_http_str v
  end.

(** [t] contains [k] in some letter case: a substring of [t] lower-cases
    to [k]. *)
Definition contains_ci (t k : string) : Prop :=
  ∃ pre w post, t = pre +:+ w +:+ post ∧ Str.lower w = k.

(** Every title of the column [col] is ASCII text. *)
Definition ascii_column (data : DataFrame) (col : string) : bool :=
  forallb (fun r => match cell r.2 col with
                    | PStr s => Str.is_ascii s
                    | _ => true
                    end) (rows data).

(** Every title of [items] is ASCII text. *)
Definition ascii_titles (items : list item) : bool :=
  forallb (fun it => Str.is_ascii (title it)) items.

(** [hits] holds the elements of [xs] that satisfy [P], all of them and in
    the order of [xs]. *)
Inductive selects {A : Type} (P : A → Prop) : list A → list A → Prop :=
  | selects_nil : selects P [] []
  | selects_keep x xs hits : P x → selects P xs hits → selects P (x :: xs) (x :: hits)
  | selects_skip x xs hits : ¬ P x → selects P xs hits → selects P (x :: xs) hits.

(** How many requests the process has issued. *)
Definition lookups (w : world) : nat := length (requests_issued w).

(** Two calls in sequence issue at most one lookup, and the second returns
    what the first did. *)
Definition cache_idempotent (requests : bool) (jikan : nat → string → http_outcome)
    (title : string) (w : world) : Prop :=
  let '(r1, r2, w2) := resolve_twice requests jikan title w in
  (lookups w2 ≤ S (lookups w))%nat ∧ r2 = r1.

(** The popular items that padding may append after [seen]: the first
    occurrence of every title that is not in [seen]. *)
Fixpoint fresh_items (seen : list string) (popular_items : list item) : list item :=
  match popular_items with
  | [] => []
  | it :: rest =>
      if bool_decide (title it ∈ seen) then fresh_items seen rest
      else it :: fresh_items (title it :: seen) rest
  end.

(** Every URL in the cache starts with [http]. *)
Definition http_cache (w : world) : Prop :=
  ∀ key url, ANIME_IMG_CACHE w !! key = Some url → Str.startswith url "http" = true.

(** No character of [s] is in U+0000 to U+001F, the range
    [_normalize_anime_title_for_search] turns into spaces.  These characters
    are the bytes below 32 of the encoding.  U+007F and U+0080 to U+009F are
    control characters too, and are not excluded. *)
Fixpoint no_c0_controls (s : string) : bool :=
  match s with
  | EmptyString => true
  | String c r => (32 <=? N_of_ascii c)%N && no_c0_controls r
  end.

(** [after] is [before], or [before] with its empty image filled in. *)
Definition image_filled (before after : item) : Prop :=
  after = before ∨
  (truthy (image_url before) = false ∧
   ∃ url, url ≠ "" ∧ after = set_image_url before (PStr url)).

(** How many of [items] have no image. *)
Definition without_image (items : list item) : nat :=
  length (List.filter (fun it => negb (truthy (image_url it))) items).

(** [title], lower-cased, contains the query, or one of the words of the
    query matches it as a word pattern. *)
Definition matches_query `{rt : PyRuntime} (title_lower title : string) : Prop :=
  Str.contains (Str.lower title) title_lower = true ∨
  ∃ word search, word ∈ Str.split title_lower ∧ 3 ≤ Str.len word ∧
                 re_compile ("\b" +:+ word +:+ "\b") = Returns search ∧
                 search (Str.lower title) = true.

Section Claims.
Context `{rt : PyRuntime}.
Variable TRAINED_MODELS : gmap string model.




End Claims.

(** ** Examples *)

Module Example.

Fixpoint digits_value (s : string) (acc : Z) : Z :=
  match s with
  | EmptyString => acc
  | String c r => digits_value r (10 * acc + (Z.of_N (N_of_ascii c) - 48))
  end.

(** [int(s)] for a decimal numeral with an optional sign. *)
Definition decimal_of_str (s : string) : result Z :=
  match Str.strip s with
  | String "-" r => if isdigit r then Returns (- digits_value r 0) else Raises ValueError
  | String "+" r => if isdigit r then Returns (digits_value r 0) else Raises ValueError
  | r => if isdigit r then Returns (digits_value r 0) else Raises ValueError
  end.

Definition is_word_char (c : ascii) : bool :=
  let n := N_of_ascii c in
  (((48 <=? n) && (n <=? 57)) || ((65 <=? n) && (n <=? 90)) ||
   ((97 <=? n) && (n <=? 122)) || (n =? 95))%N.

Definition starts_with_word_char (s : string) : bool :=
  match s with
  | String c _ => is_word_char c
  | EmptyString => false
  end.

Fixpoint drop (n : nat) (s : string) : string :=
  match n, s with
  | S k, String _ r => drop k r
  | _, _ => s
  end.

(** The search of [\bword\b] for a word of word characters; [inside] tells
    whether the character before [text] is a word character. *)
Fixpoint find_word (word text : string) (inside : bool) : bool :=
  match text with
  | EmptyString => false
  | String c r =>
      (negb inside && Str.startswith text word &&
       negb (starts_with_word_char (drop (String.length word) text)))
      || find_word word r (is_word_char c)
  end.

(** [re.compile] for the patterns [\bword\b] of the examples: a word of
    word characters, which is searched as it is written, and a word such as
    [c**], where a repetition follows a repetition, which no version of
    Python compiles.  The examples use no other pattern. *)
Definition word_pattern (pattern : string) : result (string → bool) :=
  match pattern with
  | String "\" (String "b" rest) =>
      let n := String.length rest in
      let word := String.substring 0 (n - 2) rest in
      if String.eqb (drop (n - 2) rest) "\b" &&
         negb (String.eqb word "") &&
         forallb is_word_char (list_ascii_of_string word)
      then Returns (fun text => find_word word text false)
      else Raises ReError
  | _ => Raises ReError
  end.

(** A runtime that covers the examples: decimal integers, floats written
    as integers, word patterns, and [.str] on columns of strings and
    missing values. *)
Definition runtime : PyRuntime := {|
  int_of_str := decimal_of_str;
  float_of_str := fun s => n ← decimal_of_str s; float_of_int n;
  repr_of := fun _ => "<object>";
  re_compile := word_pattern;
  str_accessor_ok := forallb (fun v => match v with
                                       | PStr _ | PNone => true
                                       | PFloat f => PrimFloat.is_nan f
                                       | _ => false
                                       end);
|}.

(** [n] times the letter é, which takes two bytes. *)
Fixpoint accents (n : nat) : string :=
  match n with
  | O => EmptyString
  | S k => "é" +:+ accents k
  end.

Definition anime_row (anime_id : Z) (name : string) : gmap string pyval :=
  <["anime_id" := PInt anime_id]> (<["Name" := PStr name]> ∅).

Definition table (names : list string) : DataFrame :=
  {| columns := ["anime_id"; "Name"];
     rows := imap (fun i name => (Z.of_nat i, anime_row (Z.of_nat i + 1) name)) names |}.

Definition models (names popular_names : list string) : gmap string model :=
  {[ "anime" := {| popular := Some (PopNames popular_names);
                   data := Some (table names) |} ]}.

(** The scenario of the specification. *)
Definition titans : gmap string model :=
  models ["Attack on Titan"; "Attack No More"; "Titanfall"]
         ["Titanfall"; "Attack on Titan"].

(** A table that lists one title twice. *)
Definition twice : gmap string model := models ["Naruto"; "Naruto"] [].


Definition empty_world : world :=
  {| ANIME_IMG_CACHE := ∅; requests_issued := []; saves_scheduled := 0 |}.

(** A service that always fails, and one that knows one cover. *)
Definition offline (n : nat) (q : string) : http_outcome := NetRaises.

Definition cover : string := "https://cdn.myanimelist.net/images/anime/13/17405l.jpg".

Definition online (n : nat) (q : string) : http_outcome :=
  NetResponse true (Returns (PDict {[ "data" := PList [PDict {[ "images" :=
    PDict {[ "jpg" := PDict {[ "large_image_url" := PStr cover ]} ]} ]}] ]})).

(** An anime row whose image cell is not a URL. *)
Definition no_cover_row : gmap string pyval :=
  <["Image URL" := PStr "N/A"]> (anime_row 20 "Naruto").

(** A record of a game with a thumbnail that is no URL. *)
Definition portal : gmap string pyval :=
  {[ "title" := PStr "Portal"; "thumbnail" := PStr "n/a"; "app_id" := PInt 400;
     "rating" := PStr "Overwhelmingly Positive" ]}.

(** A record whose genres are not all strings. *)
Definition odd_genres : gmap string pyval :=
  {[ "title" := PStr "Portal"; "genres" := PList [PStr "Puzzle"; PInt 3] ]}.

Definition shaped (name : string) (image : pyval) : item :=
  {| id := name; title := name; image_url := image; rating := 0.0%float;
     type := "anime";
     meta := {| genre := PStr ""; year := None; popularity := 0; price := None;
                similarity := None |} |}.

(** A start-up list with one cover missing. *)
Definition shelf : list item :=
  [shaped "Naruto" PNone; shaped "Bleach" (PStr "https://example.org/bleach.jpg")].


(** A games table of two rows, and a popularity frame whose index holds the
    positions 1, 5 and 0; the table has no position 5. *)
Definition game_row (app_id : Z) (name rating : string) : gmap string pyval :=
  {[ "app_id" := PInt app_id; "title" := PStr name; "rating" := PStr rating ]}.

Definition games : gmap string model :=
  {[ "game" :=
       {| popular := Some (PopFrame {| columns := ["user_reviews"];
                                       rows := [(1, ∅); (5, ∅); (0, ∅)] |});
          data := Some {| columns := ["app_id"; "title"; "rating"];
                          rows := [(0, game_row 400 "Portal" "Overwhelmingly Positive");
                                   (1, game_row 620 "Portal 2" "Very Positive")] |} |} ]}.

(** An anime table whose first row has no popularity count (pandas reads a
    missing cell as NaN). *)
Definition unranked : gmap string model :=
  {[ "anime" :=
       {| popular := Some (PopNames ["Bleach"]);
          data := Some {| columns := ["anime_id"; "Name"; "Popularity"];
                          rows := [(0, <["Popularity" := PFloat nan]> (anime_row 1 "Naruto"));
                                   (1, <["Popularity" := PInt 5]> (anime_row 2 "Bleach"))] |}
       |} ]}.

End Example.

(** * Proofs *)

(** ** Strings *)

Lemma app_cons c a b : String c a +:+ b = String c (a +:+ b).
Proof. reflexivity. Qed.

Lemma app_nil_l a : "" +:+ a = a.
Proof. reflexivity. Qed.

Lemma app_assoc_str a b c : (a +:+ b) +:+ c = a +:+ b +:+ c.
Proof.
  induction a as [|x a IH]; [reflexivity|].
  rewrite !app_cons. by rewrite IH.
Qed.

Lemma startswith_spec s p : Str.startswith s p = true ↔ ∃ r, s = p +:+ r.
Proof.
  revert s. induction p as [|a p IH]; intros s.
  - split; [intros _; by exists s|intros _; by destruct s].
  - destruct s as [|b s]; simpl.
    + split; [discriminate|intros [r Hr]; discriminate].
    + destruct (Ascii.eqb_spec a b) as [->|Hab].
      * rewrite IH. split; intros [r Hr]; exists r.
        -- by rewrite app_cons, Hr.
        -- rewrite app_cons in Hr. by injection Hr.
      * split; [discriminate|].
        intros [r Hr]. rewrite app_cons in Hr. injection Hr as ? ?. congruence.
Qed.

Lemma contains_spec hay needle :
  Str.contains hay needle = true ↔ ∃ pre post, hay = pre +:+ needle +:+ post.
Proof.
  induction hay as [|c hay IH].
  - cbn [Str.contains]. rewrite orb_false_r, startswith_spec. split.
    + intros [r Hr]. by exists "", r.
    + intros ([|x pre] & post & H); [by exists post|discriminate].
  - cbn [Str.contains]. rewrite orb_true_iff, startswith_spec, IH. split.
    + intros [[r Hr]|(pre & post & H)].
      * by exists "", r.
      * exists (String c pre), post. by rewrite app_cons, H.
    + intros ([|x pre] & post & H).
      * left. by exists post.
      * right. rewrite app_cons in H. injection H as -> H. by exists pre, post.
Qed.

Lemma contains_suffix hay a b :
  Str.contains hay (a +:+ b) = true → Str.contains hay b = true.
Proof.
  rewrite !contains_spec. intros (pre & post & ->).
  exists (pre +:+ a), post. by rewrite !app_assoc_str.
Qed.

Lemma lower_app a b : Str.lower (a +:+ b) = Str.lower a +:+ Str.lower b.
Proof.
  induction a as [|c a IH]; [reflexivity|].
  rewrite app_cons. simpl. by rewrite IH, app_cons.
Qed.

Lemma contains_ci_lower t k : contains_ci t k → Str.contains (Str.lower t) k = true.
Proof.
  intros (pre & w & post & -> & <-). apply contains_spec.
  exists (Str.lower pre), (Str.lower post). by rewrite !lower_app.
Qed.

Lemma is_space_lower c : Str.is_space (Str.lower_ascii c) = Str.is_space c.
Proof. by destruct c as [[] [] [] [] [] [] [] []]. Qed.

Lemma lstrip_lower s : Str.lstrip (Str.lower s) = Str.lower (Str.lstrip s).
Proof.
  induction s as [|c s IH]; [reflexivity|].
  simpl. rewrite is_space_lower. by destruct (Str.is_space c).
Qed.

Lemma rstrip_lower s : Str.rstrip (Str.lower s) = Str.lower (Str.rstrip s).
Proof.
  induction s as [|c s IH]; [reflexivity|].
  simpl. rewrite IH, is_space_lower.
  destruct (Str.rstrip s); simpl; [by destruct (Str.is_space c)|done].
Qed.

Lemma strip_lower s : Str.strip (Str.lower s) = Str.lower (Str.strip s).
Proof. unfold Str.strip. by rewrite lstrip_lower, rstrip_lower. Qed.

(** ** The rating scale *)

Lemma rating_ladder_values s :
  let t := Str.lower s in
  rating_ladder s =
    if Str.contains t "very positive" then 5.0%float
    else if Str.contains t "positive" then 4.0%float
    else if Str.contains t "mixed" then 3.0%float
    else if Str.contains t "negative" then 2.0%float
    else 0.0%float.
Proof.
  unfold rating_ladder. cbv zeta.
  destruct (Str.contains _ "very positive"); [done|].
  destruct (Str.contains _ "positive"); [done|].
  destruct (Str.contains _ "mixed"); [done|].
  destruct (Str.contains _ "negative") eqn:Hneg; [done|].
  destruct (Str.contains _ "very negative") eqn:Hvery; [|done].
  apply (contains_suffix _ "very " "negative") in Hvery. congruence.
Qed.

(** C1 (the code departs from the claim).  A rating string that contains
    "very negative" in any letter case never converts to 1.0: the test for
    "negative" comes first in the ladder, so the result is 2.0 unless one of
    the earlier rungs ("very positive", "positive", "mixed") applies. *)
Theorem very_negative_is_not_1 (s : string) :
  contains_ci s "very negative" →
  ∃ f, _convert_game_rating (PStr s) = Returns f ∧ f ≠ 1.0%float ∧
       (f = 2.0%float ∨ f = 3.0%float ∨ f = 4.0%float ∨ f = 5.0%float).
Proof.
  intros Hci. pose proof (contains_ci_lower _ _ Hci) as Hvery.
  assert (s ≠ "") as Hs.
  { intros ->. destruct Hci as (pre & w & post & H & Hw).
    destruct pre; [|discriminate]. destruct w; discriminate. }
  unfold _convert_game_rating. simpl.
  destruct (String.eqb_spec s "") as [?|_]; [done|]. simpl.
  eexists; split; [reflexivity|].
  rewrite rating_ladder_values. cbv zeta.
  rewrite (contains_suffix _ "very " "negative" Hvery).
  destruct (Str.contains _ "very positive"); [split; [discriminate|tauto]|].
  destruct (Str.contains _ "positive"); [split; [discriminate|tauto]|].
  destruct (Str.contains _ "mixed"); split; (discriminate || tauto).
Qed.

Lemma very_negative_is_not_1_witness :
  contains_ci "Very Negative" "very negative" ∧
  ∃ f, _convert_game_rating (PStr "Very Negative") = Returns f ∧ f ≠ 1.0%float ∧
       (f = 2.0%float ∨ f = 3.0%float ∨ f = 4.0%float ∨ f = 5.0%float).
Proof.
  assert (contains_ci "Very Negative" "very negative") as H.
  { exists "", "Very Negative", "". split; reflexivity. }
  split; [exact H|]. exact (very_negative_is_not_1 "Very Negative" H).
Defined.

Example very_negative_converts_to_2 :
  _convert_game_rating (PStr "Very Negative") = Returns 2.0%float.
Proof. reflexivity. Qed.

(** ** The normalizer *)

Section NormalizerFacts.
Context `{rt : PyRuntime}.

(** The title check of [_coerce_record] decides alone whether the record is
    refused: nothing before it can raise. *)
Lemma coerce_record_refuses obj item_type idx :
  let title_str := py_str (record_title obj idx) in
  (300 <? Str.len title_str) ||
  existsb (fun k => Str.contains (Str.lower title_str) k) forbidden_markers = true →
  _coerce_record obj item_type idx = Returns None.
Proof.
  cbv zeta. intros H. unfold _coerce_record. cbv zeta. by rewrite H.
Qed.

Lemma marker_refused obj item_type idx k :
  k ∈ forbidden_markers →
  contains_ci (py_str (record_title obj idx)) k →
  _coerce_record obj item_type idx = Returns None.
Proof.
  intros Hk Hci. apply coerce_record_refuses. cbv zeta.
  apply orb_true_iff. right. apply existsb_exists.
  exists k. split; [by apply list_elem_of_In|by apply contains_ci_lower].
Qed.

Lemma coerce_record_image_url obj item_type idx it :
  _coerce_record obj item_type idx = Returns (Some it) →
  image_url it =
    if is_http_str (record_image_url obj) then record_image_url obj else PNone.
Proof.
  unfold _coerce_record. cbv zeta.
  destruct (_ || _); [discriminate|].
  match goal with |- (mbind _ ?m) = _ → _ => destruct m as [g|e] end;
    simpl; [|discriminate].
  intros [= <-]. reflexivity.
Qed.

Lemma coerce_record_title obj item_type idx it :
  _coerce_record obj item_type idx = Returns (Some it) →
  title it = py_str (record_title obj idx) ∧
  ∀ k, k ∈ forbidden_markers → ¬ contains_ci (title it) k.
Proof.
  unfold _coerce_record. cbv zeta.
  destruct (_ || _) eqn:Hcheck; [discriminate|].
  match goal with |- (mbind _ ?m) = _ → _ => destruct m as [g|e] end;
    simpl; [|discriminate].
  intros [= <-]. split; [reflexivity|]. cbn [title].
  intros k Hk Hci. apply orb_false_iff in Hcheck as [_ Hmarkers].
  assert (existsb (fun k => Str.contains (Str.lower (py_str (record_title obj idx))) k)
                  forbidden_markers = true) as Hex; [|congruence].
  apply existsb_exists. exists k.
  split; [by apply list_elem_of_In|by apply contains_ci_lower].
Qed.

Lemma coerce_records_titles item_type i records items it k :
  coerce_records item_type i records = Returns items →
  it ∈ items → k ∈ forbidden_markers → ¬ contains_ci (title it) k.
Proof.
  revert i items. induction records as [|rec rest IH]; intros i items; simpl.
  - intros [= <-] Hit. inversion Hit.
  - destruct (_coerce_record rec item_type i) as [shaped|e] eqn:Hrec; [|discriminate].
    cbn [mbind result_bind].
    destruct (coerce_records item_type (i + 1) rest) as [shaped_rest|e] eqn:Hrest;
      [|discriminate].
    cbn [mbind result_bind]. intros [= <-] Hit Hk.
    destruct shaped as [it'|]; [|by eapply IH].
    apply elem_of_cons in Hit as [->|Hit]; [|by eapply IH].
    by apply (coerce_record_title _ _ _ _ Hrec).
Qed.

Lemma is_http_image_ok v : is_http_str v = true → image_ok v = true.
Proof. by destruct v. Qed.

End NormalizerFacts.

(** C8.  A record whose resolved title is longer than 300 characters, or
    contains one of the forbidden markers in any letter case, is dropped:
    [_coerce_record] returns [None] and does not raise. *)
Theorem bad_title_is_dropped `{rt : PyRuntime} (obj : gmap string pyval)
    (item_type : string) (idx : Z) :
  let title_str := py_str (record_title obj idx) in
  300 < Str.len title_str ∨ (∃ k, k ∈ forbidden_markers ∧ contains_ci title_str k) →
  _coerce_record obj item_type idx = Returns None.
Proof.
  cbv zeta. intros [Hlen|(k & Hk & Hci)].
  - apply coerce_record_refuses. cbv zeta.
    apply orb_true_iff. left. by apply Z.ltb_lt.
  - by apply (marker_refused _ _ _ k).
Qed.

Lemma bad_title_is_dropped_witness :
  (∃ k, k ∈ forbidden_markers ∧
        contains_ci (@py_str Example.runtime
                       (record_title (rt := Example.runtime) {[ "name" := PStr "<class 'numpy.ndarray'>" ]} 3)) k) ∧
  @_coerce_record Example.runtime {[ "name" := PStr "<class 'numpy.ndarray'>" ]} "game" 3
  = Returns None.
Proof.
  assert (∃ k, k ∈ forbidden_markers ∧
               contains_ci (@py_str Example.runtime
                 (record_title (rt := Example.runtime) {[ "name" := PStr "<class 'numpy.ndarray'>" ]} 3)) k) as H.
  { exists "ndarray". split; [unfold forbidden_markers; set_solver|].
    exists "<class 'numpy.", "ndarray", "'>". split; reflexivity. }
  split; [exact H|]. apply (@bad_title_is_dropped Example.runtime). right. exact H.
Defined.

(** The 300 of the title check are characters, not bytes: a title of 200
    accented letters is kept, one of 301 is dropped. *)
Example accented_titles :
  String.length (Example.accents 200) = 400%nat ∧
  Str.len (Example.accents 200) = 200 ∧
  (∃ it, _coerce_record (rt := Example.runtime)
           {[ "title" := PStr (Example.accents 200) ]} "anime" 0 = Returns (Some it) ∧
         title it = Example.accents 200) ∧
  _coerce_record (rt := Example.runtime)
    {[ "title" := PStr (Example.accents 301) ]} "anime" 0 = Returns None.
Proof.
  split; [vm_compute; reflexivity|]. split; [vm_compute; reflexivity|]. split.
  - eexists. split; [vm_compute; reflexivity|reflexivity].
  - vm_compute. reflexivity.
Qed.

(** C9.  A record whose title contains "index" or "series" in any letter
    case is dropped, ordinary titles such as "A Certain Magical Index"
    included: the normalizer returns [None] for it, and no item of a list
    built from records has such a title. *)
Theorem index_and_series_titles_are_dropped `{rt : PyRuntime} :
  (∀ obj item_type idx,
     let title_str := py_str (record_title obj idx) in
     contains_ci title_str "index" ∨ contains_ci title_str "series" →
     _coerce_record obj item_type idx = Returns None) ∧
  (∀ item_type records items it,
     coerce_records item_type 0 records = Returns items → it ∈ items →
     ¬ contains_ci (title it) "index" ∧ ¬ contains_ci (title it) "series").
Proof.
  split.
  - intros obj item_type idx. cbv zeta. intros [H|H].
    + apply (marker_refused _ _ _ "index"); [unfold forbidden_markers; set_solver|done].
    + apply (marker_refused _ _ _ "series"); [unfold forbidden_markers; set_solver|done].
  - intros item_type records items it Hrecords Hit.
    split; eapply coerce_records_titles; try done; unfold forbidden_markers; set_solver.
Qed.

Lemma index_and_series_titles_are_dropped_witness :
  let index_record : gmap string pyval := {[ "title" := PStr "A Certain Magical Index" ]} in
  let other_record : gmap string pyval := {[ "title" := PStr "Naruto" ]} in
  contains_ci (py_str (rt := Example.runtime)
                 (record_title (rt := Example.runtime) index_record 0)) "index" ∧
  _coerce_record (rt := Example.runtime) index_record "anime" 0 = Returns None ∧
  ∃ items, coerce_records (rt := Example.runtime) "anime" 0 [index_record; other_record]
           = Returns items ∧
           title <$> items = ["Naruto"] ∧
           ∀ it, it ∈ items →
                 ¬ contains_ci (title it) "index" ∧ ¬ contains_ci (title it) "series".
Proof.
  cbv zeta.
  assert (contains_ci (py_str (rt := Example.runtime)
            (record_title (rt := Example.runtime)
               {[ "title" := PStr "A Certain Magical Index" ]} 0)) "index") as H.
  { exists "A Certain Magical ", "Index", "". split; reflexivity. }
  destruct (index_and_series_titles_are_dropped (rt := Example.runtime)) as [Hdrop Hlist].
  split; [exact H|]. split; [apply Hdrop; left; exact H|].
  destruct (coerce_records (rt := Example.runtime) "anime" 0
              [{[ "title" := PStr "A Certain Magical Index" ]};
               {[ "title" := PStr "Naruto" ]}]) as [items|] eqn:Hitems;
    [|vm_compute in Hitems; discriminate].
  exists items. split; [reflexivity|]. split.
  - vm_compute in Hitems. injection Hitems as <-. reflexivity.
  - intros it Hit. exact (Hlist _ _ _ _ Hitems Hit).
Defined.

(** ** The request handler *)

Lemma effective_limit_range limit : 1 ≤ effective_limit limit ≤ 50.
Proof. unfold effective_limit. destruct (Z.eqb_spec limit 12); lia. Qed.



(** ** Image URLs *)

Lemma steam_header_is_http app_id : is_http_str (PStr (steam_header app_id)) = true.
Proof.
  apply startswith_spec.
  by exists ("s://cdn.akamai.steamstatic.com/steam/apps/" +:+ app_id +:+ "/header.jpg").
Qed.

Lemma format_item_image_url `{rt : PyRuntime}
    (row : gmap string pyval) (item_type col : string) (idx : Z) (it : item) :
  _format_item row item_type col idx = Returns it →
  if String.eqb item_type "anime" then image_url it = dict_get row "Image URL"
  else is_http_str (image_url it) = true.
Proof.
  unfold _format_item. destruct (String.eqb item_type "anime").
  - destruct (anime_rating _ _) as [r|e]; [|discriminate]. cbn [mbind result_bind].
    destruct (py_int _) as [p|e]; [|discriminate]. cbn [mbind result_bind].
    by intros [= <-].
  - destruct (_convert_game_rating _) as [r|e]; [|discriminate]. cbn [mbind result_bind].
    destruct (py_int _) as [p|e]; [|discriminate]. cbn [mbind result_bind].
    intros [= <-]. apply steam_header_is_http.
Qed.

(** C7 (amended).  Every item the normalizer produces has an [image_url]
    that is null or a string starting with [http].  A raw image, the first
    of the image keys of the record that holds a value, is kept when it is
    such a string.  Any other raw image, missing ones included, is replaced:
    by the Steam header URL of the application id of the record, when it has
    one that [int] accepts, and by null otherwise.  Result formatting gives
    a game item the Steam header URL, which starts with [http], and gives an
    anime item the raw ["Image URL"] cell of its row as it is. *)
Theorem image_url_of_items `{rt : PyRuntime} :
  (∀ obj item_type idx it,
     let image :=
       dict_get obj "image_url" `or` dict_get obj "img_url" `or` dict_get obj "poster" `or`
       dict_get obj "header_image" `or` dict_get obj "thumbnail" `or`
       dict_get obj "Image URL" in
     let app_id :=
       dict_get obj "app_id" `or` dict_get obj "appid" `or` dict_get obj "appId" in
     _coerce_record obj item_type idx = Returns (Some it) →
     image_ok (image_url it) = true ∧
     image_url it =
       if is_http_str image then image
       else if truthy app_id then
         match py_int app_id with
         | Returns n => PStr (steam_header (pretty n))
         | Raises _ => PNone
         end
       else PNone) ∧
  (∀ row item_type col idx it,
     _format_item row item_type col idx = Returns it →
     if String.eqb item_type "anime" then image_url it = dict_get row "Image URL"
     else is_http_str (image_url it) = true).
Proof.
  split.
  - intros obj item_type idx it image app_id H.
    pose proof (coerce_record_image_url _ _ _ _ H) as Hurl. split.
    { rewrite Hurl. destruct (is_http_str _) eqn:Hhttp; [|done].
      by apply is_http_image_ok. }
    rewrite Hurl. unfold record_image_url. cbv zeta. fold image. fold app_id.
    clearbody image app_id.
    destruct (is_http_str image) eqn:Hhttp.
    + assert (truthy image = true) as ->.
      { destruct image as [| | | |s| |]; try discriminate. by destruct s. }
      cbn [negb orb andb]. by rewrite Hhttp.
    + rewrite orb_true_r. cbn [andb]. destruct (truthy app_id); [|by rewrite Hhttp].
      destruct (py_int app_id) as [n|e]; cbn [mbind result_bind try_or].
      * by rewrite steam_header_is_http.
      * by rewrite Hhttp.
  - intros row item_type col idx it. by apply format_item_image_url.
Qed.

Lemma image_url_of_items_witness :
  let obj : gmap string pyval := {[ "title" := PStr "Portal"; "thumbnail" := PStr "n/a";
                                   "app_id" := PInt 400 ]} in
  ∃ it, _coerce_record (rt := Example.runtime) obj "game" 0 = Returns (Some it) ∧
        image_ok (image_url it) = true ∧
        image_url it = PStr (steam_header "400") ∧
        ∃ it', _format_item (rt := Example.runtime) Example.no_cover_row "anime" "Name" 0
               = Returns it' ∧
               image_url it' = PStr "N/A".
Proof.
  cbv zeta.
  destruct (_coerce_record (rt := Example.runtime)
              {[ "title" := PStr "Portal"; "thumbnail" := PStr "n/a";
                 "app_id" := PInt 400 ]} "game" 0) as [[it|]|] eqn:H;
    [|vm_compute in H; discriminate..].
  destruct (_format_item (rt := Example.runtime) Example.no_cover_row "anime" "Name" 0)
    as [it'|] eqn:H'; [|vm_compute in H'; discriminate].
  destruct (image_url_of_items (rt := Example.runtime)) as [Hnorm Hfmt].
  destruct (Hnorm _ _ _ _ H) as [Hok Hurl].
  exists it. split; [done|]. split; [exact Hok|]. split.
  - rewrite Hurl. vm_compute. reflexivity.
  - exists it'. split; [done|]. exact (Hfmt _ _ _ _ _ H').
Defined.

(** C7 (counterexample).  Formatting an anime row whose ["Image URL"] cell
    is ["N/A"] keeps that value. *)
Lemma format_item_keeps_raw_image_url :
  ∃ it, _format_item (rt := Example.runtime) Example.no_cover_row "anime" "Name" 0
        = Returns it ∧
        image_url it = PStr "N/A" ∧ image_ok (image_url it) = false.
Proof. eexists. split; [vm_compute; reflexivity|]. split; reflexivity. Qed.

(** ** The image cache *)

Section ImageCacheFacts.
Variable requests : bool.
Variable jikan : nat → string → http_outcome.

Lemma cached_title_is_served title w url :
  title ≠ "" → ANIME_IMG_CACHE w !! Str.strip title = Some url →
  _get_anime_image_url requests jikan title w = (Some url, w).
Proof.
  intros Ht Hc. unfold _get_anime_image_url.
  destruct (String.eqb_spec title "") as [?|_]; [done|]. by rewrite Hc.
Qed.

(** A call that returns a URL leaves it in the cache, and issues at most one
    request. *)
Lemma resolved_title_is_cached title w url w1 :
  _get_anime_image_url requests jikan title w = (Some url, w1) →
  title ≠ "" ∧ ANIME_IMG_CACHE w1 !! Str.strip title = Some url ∧
  (lookups w1 ≤ S (lookups w))%nat.
Proof.
  unfold _get_anime_image_url.
  destruct (String.eqb_spec title "") as [?|Ht]; [discriminate|].
  destruct (ANIME_IMG_CACHE w !! Str.strip title) as [u|] eqn:Hc.
  { intros [= -> <-]. repeat split; [done..|lia]. }
  destruct requests; [|discriminate]. cbn [negb].
  destruct (jikan _ _) as [|ok json]; [discriminate|].
  destruct ok; [|discriminate].
  destruct (response_url json) as [[| | | |u| |]|]; try discriminate.
  destruct (Str.startswith u "http"); [|discriminate].
  intros [= -> <-]. repeat split; [done| |].
  - cbn. apply lookup_insert_eq.
  - unfold lookups. cbn. lia.
Qed.

End ImageCacheFacts.

(** C3 (amended).  When the first of two calls for a title returns a URL,
    from the cache or from a successful lookup, the second call returns the
    same URL from the cache and issues no request, so the two calls issue at
    most one.  A lookup that fails stores nothing. *)
Theorem second_call_is_served_from_cache (requests : bool)
    (jikan : nat → string → http_outcome) (title : string) (w w1 : world) (url : string) :
  _get_anime_image_url requests jikan title w = (Some url, w1) →
  _get_anime_image_url requests jikan title w1 = (Some url, w1) ∧
  ANIME_IMG_CACHE w1 !! Str.strip title = Some url ∧
  cache_idempotent requests jikan title w.
Proof.
  intros H. destruct (resolved_title_is_cached _ _ _ _ _ _ H) as (Ht & Hc & Hn).
  pose proof (cached_title_is_served requests jikan _ _ _ Ht Hc) as H2.
  split; [done|]. split; [done|].
  unfold cache_idempotent, resolve_twice. rewrite H, H2. by split.
Qed.

Lemma second_call_is_served_from_cache_witness :
  ∃ w1, _get_anime_image_url true Example.online "Naruto" Example.empty_world
        = (Some Example.cover, w1) ∧
        _get_anime_image_url true Example.online "Naruto" w1 = (Some Example.cover, w1) ∧
        ANIME_IMG_CACHE w1 !! Str.strip "Naruto" = Some Example.cover ∧
        cache_idempotent true Example.online "Naruto" Example.empty_world.
Proof.
  eexists. split; [vm_compute; reflexivity|].
  apply second_call_is_served_from_cache. vm_compute. reflexivity.
Defined.

(** C3 (counterexample).  With an empty cache and a service that fails, two
    calls for "Naruto" issue two requests. *)
Lemma failed_lookup_is_repeated :
  resolve_twice true Example.offline "Naruto" Example.empty_world
  = (None, None, {| ANIME_IMG_CACHE := ∅; requests_issued := ["Naruto"; "Naruto"];
                    saves_scheduled := 0 |}) ∧
  ¬ cache_idempotent true Example.offline "Naruto" Example.empty_world.
Proof.
  split; [reflexivity|].
  unfold cache_idempotent. intros [H _]. vm_compute in H. lia.
Qed.

(** ** Popular items *)

Section PopularFacts.
Context `{rt : PyRuntime}.
Variable TRAINED_MODELS : gmap string model.

Lemma popular_anime_no_table i names : popular_anime None i names = [].
Proof. revert i. induction names as [|n names IH]; intros i; [done|]. simpl. apply IH. Qed.

Lemma popular_game_no_table labels : popular_game None labels = [].
Proof. induction labels as [|l labels IH]; [done|]. simpl. apply IH. Qed.

(** Without a table there are no popular items: every iteration of the loops
    of [_get_popular_items] raises and is skipped. *)
Lemma popular_items_no_table item_type limit :
  (∀ m, TRAINED_MODELS !! item_type = Some m → data m = None) →
  _get_popular_items TRAINED_MODELS item_type limit = [].
Proof.
  intros H. unfold _get_popular_items.
  destruct (String.eqb_spec item_type "anime") as [->|_].
  { destruct (TRAINED_MODELS !! "anime") as [m|]; [|done].
    rewrite (H m eq_refl). destruct (popular m) as [[names|frame]|]; [..|done];
      apply popular_anime_no_table. }
  destruct (String.eqb_spec item_type "game") as [->|_]; [|done].
  destruct (TRAINED_MODELS !! "game") as [m|]; [|done].
  rewrite (H m eq_refl). destruct (popular m) as [[names|frame]|]; [done| |done].
  apply popular_game_no_table.
Qed.

End PopularFacts.

(** C6.  A query that is empty after trimming gets the list of
    [_get_popular_items] for the same type and limit. *)
Theorem empty_query_gets_popular `{rt : PyRuntime} (TRAINED_MODELS : gmap string model)
    (q item_type : string) (limit : Z) :
  Str.strip q = "" →
  _get_recommendations_from_trained_model TRAINED_MODELS q item_type limit
  = _get_popular_items TRAINED_MODELS item_type limit.
Proof.
  intros Hq. unfold _get_recommendations_from_trained_model.
  destruct (TRAINED_MODELS !! item_type) as [m|] eqn:Hm.
  - destruct (data m) as [d|] eqn:Hd.
    + by rewrite strip_lower, Hq.
    + symmetry. apply popular_items_no_table. intros m' Hm'. congruence.
  - symmetry. apply popular_items_no_table. intros m' Hm'. congruence.
Qed.

Lemma empty_query_gets_popular_witness :
  Str.strip "   " = "" ∧
  title <$> _get_recommendations_from_trained_model (rt := Example.runtime)
              Example.titans "   " "anime" 2
  = ["Titanfall"; "Attack on Titan"] ∧
  _get_recommendations_from_trained_model (rt := Example.runtime)
    Example.titans "   " "anime" 2
  = _get_popular_items (rt := Example.runtime) Example.titans "anime" 2.
Proof.
  split; [reflexivity|]. split; [vm_compute; reflexivity|].
  apply empty_query_gets_popular. reflexivity.
Defined.

(** ** The tiered matcher *)

Section MatcherFacts.
Context `{rt : PyRuntime}.
Variable TRAINED_MODELS : gmap string model.

Lemma py_take_length {A} (n : Z) (xs : list A) : 0 ≤ n → len (py_take n xs) ≤ n.
Proof.
  intros Hn. unfold py_take, len. destruct (Z.leb_spec 0 n); [|lia].
  rewrite length_take. lia.
Qed.

Lemma py_take_all {A} (n : Z) (xs : list A) : len xs ≤ n → py_take n xs = xs.
Proof.
  unfold py_take, len. intros Hn. destruct (Z.leb_spec 0 n); [|lia].
  apply take_ge. lia.
Qed.

Lemma format_item_title it item_type col idx r :
  _format_item it item_type col idx = Returns r → title r = py_str (cell it col).
Proof.
  unfold _format_item. destruct (String.eqb item_type "anime").
  - destruct (anime_rating _ _); [|discriminate]. cbn [mbind result_bind].
    destruct (py_int _); [|discriminate]. cbn [mbind result_bind].
    by intros [= <-].
  - destruct (_convert_game_rating _); [|discriminate]. cbn [mbind result_bind].
    destruct (py_int _); [|discriminate]. cbn [mbind result_bind].
    by intros [= <-].
Qed.

(** Strategy 1 appends the item of every row it is given, in order. *)
Lemma add_exact_spec item_type col matches results out :
  add_exact item_type col matches results = Returns out →
  ∃ items, out = results ++ items ∧
           Forall2 (fun r it => _format_item r.2 item_type col r.1 = Returns it)
                   matches items.
Proof.
  revert results. induction matches as [|[idx it] matches IH]; intros results; simpl.
  - intros [= <-]. exists []. by rewrite app_nil_r.
  - destruct (_format_item it item_type col idx) as [r|e] eqn:Hr; [|discriminate].
    cbn [mbind result_bind]. intros H.
    destruct (IH _ H) as (items & -> & Hall).
    exists (r :: items). split; [by rewrite <- app_assoc|]. by constructor.
Qed.




(** Padding, as a filter: the loop appends the fresh popular items until
    [limit] is reached. *)
Lemma pad_loop_spec limit popular_items results (existing : gset string) seen :
  len results < limit →
  (∀ t, t ∈ existing ↔ t ∈ seen) →
  pad_loop limit popular_items results existing
  = results ++ take (Z.to_nat (limit - len results)) (fresh_items seen popular_items).
Proof.
  revert results existing seen.
  induction popular_items as [|it rest IH]; intros results existing seen Hlen Hseen.
  - simpl. by rewrite take_nil, app_nil_r.
  - cbn [pad_loop fresh_items].
    destruct (decide (title it ∈ seen)) as [Hin|Hin].
    + rewrite (bool_decide_eq_false_2 (title it ∉ existing)) by (rewrite Hseen; tauto).
      rewrite (bool_decide_eq_true_2 _ Hin).
      destruct (Z.leb_spec limit (len results)); [lia|]. by apply IH.
    + rewrite (bool_decide_eq_true_2 (title it ∉ existing)) by (by rewrite Hseen).
      rewrite (bool_decide_eq_false_2 _ Hin).
      assert (len (results ++ [it]) = len results + 1) as Hlen'.
      { unfold len. rewrite length_app. simpl. lia. }
      replace (Z.to_nat (limit - len results))
        with (S (Z.to_nat (limit - len (results ++ [it])))) by lia.
      cbn [take]. destruct (Z.leb_spec limit (len (results ++ [it]))) as [Hfull|Hmore].
      * replace (Z.to_nat (limit - len (results ++ [it]))) with 0%nat by lia.
        by rewrite take_0.
      * rewrite (IH _ _ (title it :: seen)); [by rewrite <- app_assoc|done|].
        intros t. rewrite elem_of_union, elem_of_singleton, elem_of_cons, Hseen. tauto.
Qed.

Lemma pad_popular_spec item_type limit results :
  len results < limit →
  pad_popular TRAINED_MODELS item_type limit results
  = results ++ take (Z.to_nat (limit - len results))
                    (fresh_items (title <$> results)
                       (_get_popular_items TRAINED_MODELS item_type (limit - len results))).
Proof.
  intros Hlen. unfold pad_popular. destruct (Z.ltb_spec (len results) limit); [|lia].
  apply pad_loop_spec; [done|]. intros t. apply elem_of_list_to_set.
Qed.


(** What the matcher returns once the strategies have run without error. *)
Lemma recommendations_unfold q item_type limit m d results :
  TRAINED_MODELS !! item_type = Some m → data m = Some d →
  Str.strip (Str.lower q) ≠ "" →
  tier_results d (Str.strip (Str.lower q)) item_type limit = Returns results →
  _get_recommendations_from_trained_model TRAINED_MODELS q item_type limit
  = py_take limit (pad_popular TRAINED_MODELS item_type limit results).
Proof.
  intros Hm Hd Hq Ht. unfold _get_recommendations_from_trained_model.
  rewrite Hm, Hd. destruct (String.eqb_spec (Str.strip (Str.lower q)) ""); [done|].
  by rewrite Ht.
Qed.

Lemma tier_results_unfold d col title_lower item_type limit :
  title_column d = Some col → str_accessor_ok (column d col) = true →
  tier_results d title_lower item_type limit
  = run_tiers d col title_lower item_type limit.
Proof. intros Hcol Hstr. unfold tier_results. by rewrite Hcol, Hstr. Qed.

End MatcherFacts.

(** [fresh_items] keeps, in order, the first item of every title that is not
    in [seen]. *)
Lemma fresh_items_spec seen popular_items :
  sublist (fresh_items seen popular_items) popular_items ∧
  NoDup (title <$> fresh_items seen popular_items) ∧
  (∀ it, it ∈ fresh_items seen popular_items → title it ∉ seen) ∧
  (∀ it, it ∈ popular_items →
         title it ∈ seen ∨ title it ∈ title <$> fresh_items seen popular_items).
Proof.
  revert seen. induction popular_items as [|p rest IH]; intros seen.
  { simpl. repeat split; [constructor|constructor|..]; intros it H; inversion H. }
  cbn [fresh_items]. destruct (decide (title p ∈ seen)) as [Hin|Hin].
  - rewrite (bool_decide_eq_true_2 _ Hin).
    destruct (IH seen) as (Hsub & Hnd & Hnew & Hall).
    repeat split; [by constructor|done|done|].
    intros it [->|Hit]%elem_of_cons; [by left|by apply Hall].
  - rewrite (bool_decide_eq_false_2 _ Hin).
    destruct (IH (title p :: seen)) as (Hsub & Hnd & Hnew & Hall).
    repeat split.
    + by constructor.
    + rewrite fmap_cons. constructor; [|done].
      intros (it & Ht & Hit)%list_elem_of_fmap. apply (Hnew it Hit).
      rewrite <- Ht. apply list_elem_of_here.
    + intros it [->|Hit]%elem_of_cons; [done|].
      intros Hs. apply (Hnew it Hit). by apply list_elem_of_further.
    + intros it [->|Hit]%elem_of_cons.
      * right. rewrite fmap_cons. apply list_elem_of_here.
      * rewrite fmap_cons. destruct (Hall it Hit) as [[Heq|?]%elem_of_cons|?].
        -- right. rewrite Heq. apply list_elem_of_here.
        -- by left.
        -- right. by apply list_elem_of_further.
Qed.




Section ExactTier.
Context `{rt : PyRuntime}.



End ExactTier.




(** ** Duplicate titles *)

Section Duplicates.
Context `{rt : PyRuntime}.
Variable TRAINED_MODELS : gmap string model.

Lemma has_title_spec results t : has_title results t = true ↔ t ∈ title <$> results.
Proof.
  unfold has_title. rewrite existsb_exists, list_elem_of_fmap. split.
  - intros (r & Hr%list_elem_of_In & Heq%String.eqb_eq). by exists r.
  - intros (r & -> & Hr%list_elem_of_In). exists r. by rewrite String.eqb_refl.
Qed.

Lemma titles_snoc_distinct results r :
  NoDup (title <$> results) → has_title results (title r) = false →
  NoDup (title <$> results ++ [r]).
Proof.
  intros Hnd Hnew. rewrite fmap_app. apply NoDup_app. split; [done|]. split.
  - intros t Ht [->|Hnil]%elem_of_cons; [|inversion Hnil].
    apply has_title_spec in Ht. congruence.
  - apply NoDup_singleton.
Qed.

(** Strategies 2 to 4 never repeat a title. *)
Lemma add_matches_distinct limit item_type col matches results out :
  NoDup (title <$> results) →
  add_matches limit item_type col matches results = Returns out →
  NoDup (title <$> out).
Proof.
  revert results. induction matches as [|[idx it] matches IH]; intros results Hnd; simpl.
  - by intros [= <-].
  - destruct (limit <=? len results); [by intros [= <-]|].
    destruct (has_title results _) eqn:Hnew; [by apply IH|].
    destruct (_format_item it item_type col idx) as [r|e] eqn:Hr; [|discriminate].
    cbn [mbind result_bind]. apply IH. apply titles_snoc_distinct; [done|].
    by rewrite (format_item_title _ _ _ _ _ Hr).
Qed.

Lemma add_words_distinct d limit item_type col words results out :
  NoDup (title <$> results) →
  add_words d limit item_type col words results = Returns out →
  NoDup (title <$> out).
Proof.
  revert results. induction words as [|word words IH]; intros results Hnd; simpl.
  - by intros [= <-].
  - destruct (3 <=? Str.len word); [|by apply IH].
    destruct (re_compile _) as [search|e]; [|discriminate]. cbn [mbind result_bind].
    destruct (add_matches _ _ _ _ _) as [results'|e] eqn:Hm; [|discriminate].
    cbn [mbind result_bind]. apply IH. by eapply add_matches_distinct.
Qed.

(** Neither does the padding. *)
Lemma pad_popular_distinct item_type limit results :
  NoDup (title <$> results) →
  NoDup (title <$> pad_popular TRAINED_MODELS item_type limit results).
Proof.
  intros Hnd. destruct (Z.lt_ge_cases (len results) limit) as [Hlen|Hlen].
  - rewrite pad_popular_spec by done.
    set (fetched := _get_popular_items _ _ _).
    destruct (fresh_items_spec (title <$> results) fetched) as (_ & Hfresh & Hnew & _).
    rewrite fmap_app, fmap_take. apply NoDup_app. split; [done|]. split.
    + intros t Ht Hin. apply subseteq_take in Hin.
      apply list_elem_of_fmap in Hin as (it & -> & Hit). by apply (Hnew it Hit).
    + eapply sublist_NoDup; [done|apply sublist_take].
  - unfold pad_popular. by destruct (Z.ltb_spec (len results) limit); [lia|].
Qed.

(** X18.  A repeated title in the result comes from the first strategy
    only: when the first [limit] exact matches have pairwise distinct titles
    and matching ends without error, the titles of the result are pairwise
    distinct, for the later strategies and the padding never add a title
    that is present. *)
Lemma distinct_exact_matches_give_distinct_titles q item_type limit m d col results :
  TRAINED_MODELS !! item_type = Some m → data m = Some d →
  title_column d = Some col →
  Str.strip (Str.lower q) ≠ "" →
  tier_results d (Str.strip (Str.lower q)) item_type limit = Returns results →
  NoDup ((fun r => py_str (cell r.2 col)) <$>
           py_take limit (select d col (String.eqb (Str.strip (Str.lower q))))) →
  NoDup (title <$> _get_recommendations_from_trained_model
                     TRAINED_MODELS q item_type limit).
Proof.
  intros Hm Hd Hcol Hq Ht Hrows.
  rewrite (recommendations_unfold _ _ _ _ _ _ _ Hm Hd Hq Ht).
  assert (NoDup (title <$> results)) as Hnd.
  { unfold tier_results in Ht. rewrite Hcol in Ht.
    destruct (negb _); [discriminate|]. unfold run_tiers in Ht.
    destruct (add_exact _ _ _ _) as [r1|e] eqn:H1; [|discriminate].
    cbn [mbind result_bind] in Ht.
    destruct (add_matches _ _ _ _ r1) as [r2|e] eqn:H2; [|discriminate].
    cbn [mbind result_bind] in Ht.
    apply add_exact_spec in H1 as (exact & -> & Hall).
    change ([] ++ exact) with exact in *.
    assert (title <$> exact
            = (fun r => py_str (cell r.2 col)) <$>
                py_take limit (select d col (String.eqb (Str.strip (Str.lower q))))) as He.
    { clear -Hall. induction Hall as [|r it rows items Hr _ IH]; [done|].
      rewrite !fmap_cons, IH. f_equal. by apply format_item_title in Hr. }
    rewrite <- He in Hrows.
    pose proof (add_matches_distinct _ _ _ _ _ _ Hrows H2) as Hr2.
    assert (∀ r3 out,
              NoDup (title <$> r3) →
              (if 1 <? len (Str.split (Str.strip (Str.lower q)))
               then add_words d limit item_type col (Str.split (Str.strip (Str.lower q))) r3
               else Returns r3) = Returns out → NoDup (title <$> out)) as Hwords.
    { intros r3 out Hr3. destruct (1 <? _); [by apply add_words_distinct|by intros [= <-]]. }
    destruct (4 <=? Str.len _).
    - destruct (add_matches _ _ _ _ r2) as [r3|e] eqn:H3; [|discriminate].
      cbn [mbind result_bind] in Ht.
      eapply Hwords; [|done]. by eapply add_matches_distinct.
    - cbn [mbind result_bind] in Ht. by eapply Hwords. }
  unfold py_take. destruct (0 <=? limit);
    (rewrite fmap_take; eapply sublist_NoDup; [|apply sublist_take]);
    by apply pad_popular_distinct.
Qed.

End Duplicates.

(** C2 (the code departs from the claim).  A table that lists the title
    "Naruto" twice makes the query "naruto" return it twice: the first
    strategy appends every exact match without the duplicate test that the
    other strategies and the padding make. *)
Theorem repeated_title_is_returned_twice `{rt : PyRuntime} :
  str_accessor_ok [PStr "Naruto"; PStr "Naruto"] = true →
  title <$> _get_recommendations_from_trained_model Example.twice "naruto" "anime" 12
  = ["Naruto"; "Naruto"] ∧
  ¬ NoDup (title <$> _get_recommendations_from_trained_model
                       Example.twice "naruto" "anime" 12).
Proof.
  intros Hstr.
  assert (title <$> _get_recommendations_from_trained_model Example.twice "naruto" "anime" 12
          = ["Naruto"; "Naruto"]) as H.
  { destruct (run_tiers (Example.table ["Naruto"; "Naruto"]) "Name" "naruto" "anime" 12)
      as [results|e] eqn:Hrun; [|vm_compute in Hrun; discriminate].
    rewrite (recommendations_unfold Example.twice "naruto" "anime" 12
               {| popular := Some (PopNames []);
                  data := Some (Example.table ["Naruto"; "Naruto"]) |}
               (Example.table ["Naruto"; "Naruto"]) results);
      [|reflexivity|reflexivity|discriminate|].
    - vm_compute in Hrun. injection Hrun as <-. vm_compute. reflexivity.
    - rewrite <- Hrun. apply tier_results_unfold; [reflexivity|exact Hstr]. }
  split; [exact H|]. rewrite H. intros Hnd. inversion Hnd as [|? ? Hnotin _]; subst.
  apply Hnotin, list_elem_of_here.
Qed.

Lemma repeated_title_is_returned_twice_witness :
  str_accessor_ok (PyRuntime := Example.runtime) [PStr "Naruto"; PStr "Naruto"] = true ∧
  title <$> _get_recommendations_from_trained_model (rt := Example.runtime)
              Example.twice "naruto" "anime" 12 = ["Naruto"; "Naruto"] ∧
  ¬ NoDup (title <$> _get_recommendations_from_trained_model (rt := Example.runtime)
                       Example.twice "naruto" "anime" 12).
Proof.
  split; [reflexivity|].
  apply (repeated_title_is_returned_twice (rt := Example.runtime)). reflexivity.
Defined.

(** ** The scenarios of the specification *)

Example rating_conversions :
  _convert_game_rating (PStr "Very Positive") = Returns 5.0%float ∧
  _convert_game_rating (PStr "Mixed Reviews") = Returns 3.0%float ∧
  _convert_game_rating PNone = Returns 0.0%float ∧
  _convert_game_rating (PInt 0) = Returns 0.0%float ∧
  _convert_game_rating (PFloat nan) = Raises AttributeError.
Proof. repeat split; reflexivity. Qed.

Example query_attack :
  title <$> try_or (tier_results (rt := Example.runtime)
                      (Example.table ["Attack on Titan"; "Attack No More"; "Titanfall"])
                      "attack" "anime" 12) []
  = ["Attack on Titan"; "Attack No More"] ∧
  title <$> _get_recommendations_from_trained_model (rt := Example.runtime)
              Example.titans "attack" "anime" 12
  = ["Attack on Titan"; "Attack No More"; "Titanfall"].
Proof. split; vm_compute; reflexivity. Qed.

Example query_on_titan :
  title <$> _get_recommendations_from_trained_model (rt := Example.runtime)
              Example.titans "No Titan" "anime" 12
  = ["Attack on Titan"; "Titanfall"].
Proof. vm_compute. reflexivity. Qed.

(** * Further properties of the code *)

(** ** Ratings *)

(** X1.  [_convert_game_rating] gives 0.0, 2.0, 3.0, 4.0 or 5.0 and nothing
    else, whatever it is given; it raises only for a value that is truthy and
    not a string, which has no [lower] method. *)
Theorem convert_game_rating_outcomes (v : pyval) :
  match _convert_game_rating v with
  | Returns f =>
      f = 0.0%float ∨ f = 2.0%float ∨ f = 3.0%float ∨ f = 4.0%float ∨ f = 5.0%float
  | Raises e => e = AttributeError ∧ truthy v = true ∧ ∀ s, v ≠ PStr s
  end.
Proof.
  unfold _convert_game_rating. destruct (truthy v) eqn:Hv; cbn [negb]; [|by left].
  destruct v; try (by repeat split).
  rewrite rating_ladder_values. cbv zeta.
  destruct (Str.contains _ "very positive"); [tauto|].
  destruct (Str.contains _ "positive"); [tauto|].
  destruct (Str.contains _ "mixed"); [tauto|].
  destruct (Str.contains _ "negative"); tauto.
Qed.

(** ** The normalizer *)

Lemma join_comma_raises xs e :
  join_comma xs = Raises e → e = TypeError ∧ ∃ x, x ∈ xs ∧ ∀ s, x ≠ PStr s.
Proof.
  induction xs as [|x xs IH]; [discriminate|].
  assert ((∀ s, x ≠ PStr s) → join_comma (x :: xs) = Raises e →
          e = TypeError ∧ ∃ x', x' ∈ x :: xs ∧ ∀ s, x' ≠ PStr s) as Hother.
  { intros Hx H. split.
    - destruct x; try (by destruct (Hx s)); destruct xs; cbn [join_comma] in H; congruence.
    - exists x. split; [apply list_elem_of_here|done]. }
  destruct x as [| | | |s| |]; try (apply Hother; discriminate).
  destruct xs as [|y ys]; [cbn [join_comma]; discriminate|].
  change (join_comma (PStr s :: y :: ys))
    with (r ← join_comma (y :: ys); Returns (s +:+ ", " +:+ r)).
  destruct (join_comma (y :: ys)) as [r|e'] eqn:Hrest; [discriminate|].
  cbn [mbind result_bind]. intros [= <-].
  destruct (IH eq_refl) as (-> & x & Hx & Hnot).
  split; [done|]. exists x. split; [by apply list_elem_of_further|done].
Qed.

(** X2.  [_coerce_record] raises in one case only: the genre it resolves is
    a list (or tuple) that holds something other than a string, which makes
    [", ".join] raise [TypeError].  The title of such a record has passed the
    check. *)
Theorem coerce_record_raises_on_genres_only `{rt : PyRuntime} (obj : gmap string pyval)
    (item_type : string) (idx : Z) (e : exc) :
  _coerce_record obj item_type idx = Raises e →
  e = TypeError ∧
  ∃ xs x,
    dict_get obj "genre" `or` dict_get obj "genres" `or` dict_get obj "tags" `or`
    dict_get obj "Genres" `or` PStr "" = PList xs ∧
    x ∈ xs ∧ ∀ s, x ≠ PStr s.
Proof.
  unfold _coerce_record. cbv zeta.
  destruct (_ || _); [discriminate|].
  destruct (dict_get obj "genre" `or` dict_get obj "genres" `or` dict_get obj "tags" `or`
            dict_get obj "Genres" `or` PStr "") as [| | | | |xs|] eqn:Hg;
    try discriminate.
  destruct (join_comma xs) as [g|e'] eqn:Hj; [discriminate|].
  cbn [mbind result_bind]. intros [= <-].
  destruct (join_comma_raises _ _ Hj) as (-> & x & Hx & Hnot).
  split; [done|]. by exists xs, x.
Qed.

Lemma coerce_record_raises_on_genres_only_witness :
  _coerce_record (rt := Example.runtime) Example.odd_genres "game" 0 = Raises TypeError ∧
  TypeError = TypeError ∧
  ∃ xs x,
    dict_get Example.odd_genres "genre" `or` dict_get Example.odd_genres "genres" `or`
    dict_get Example.odd_genres "tags" `or` dict_get Example.odd_genres "Genres" `or`
    PStr "" = PList xs ∧
    x ∈ xs ∧ ∀ s, x ≠ PStr s.
Proof.
  assert (_coerce_record (rt := Example.runtime) Example.odd_genres "game" 0
          = Raises TypeError) as H by (vm_compute; reflexivity).
  split; [exact H|]. exact (coerce_record_raises_on_genres_only _ _ _ _ H).
Defined.

(** X3.  An item the normalizer produces carries the type it was asked for,
    a title of at most 300 characters with none of the forbidden markers in
    any letter case, a genre that is a string, a price entry and no
    similarity entry. *)
Theorem coerce_record_item_shape `{rt : PyRuntime} (obj : gmap string pyval)
    (item_type : string) (idx : Z) (it : item) :
  _coerce_record obj item_type idx = Returns (Some it) →
  type it = item_type ∧
  title it = py_str (record_title obj idx) ∧
  Str.len (title it) ≤ 300 ∧
  (∀ k, k ∈ forbidden_markers → ¬ contains_ci (title it) k) ∧
  (∃ g, genre (meta it) = PStr g) ∧
  is_Some (price (meta it)) ∧ similarity (meta it) = None.
Proof.
  intros H. destruct (coerce_record_title _ _ _ _ H) as [Htitle Hmarkers].
  revert H. unfold _coerce_record. cbv zeta.
  destruct (_ || _) eqn:Hcheck; [discriminate|].
  match goal with |- (mbind _ ?m) = _ → _ => destruct m as [g|e] end;
    simpl; [|discriminate].
  intros [= <-]. cbn [type title meta genre price similarity].
  apply orb_false_iff in Hcheck as [Hlen%Z.ltb_ge _].
  repeat split; [done|by rewrite <- Htitle|by eexists|by eexists].
Qed.

Lemma coerce_record_item_shape_witness :
  ∃ it, _coerce_record (rt := Example.runtime) Example.portal "game" 7 = Returns (Some it) ∧
        type it = "game" ∧
        title it = py_str (rt := Example.runtime)
                     (record_title (rt := Example.runtime) Example.portal 7) ∧
        Str.len (title it) ≤ 300 ∧
        (∀ k, k ∈ forbidden_markers → ¬ contains_ci (title it) k) ∧
        (∃ g, genre (meta it) = PStr g) ∧
        is_Some (price (meta it)) ∧ similarity (meta it) = None.
Proof.
  destruct (_coerce_record (rt := Example.runtime) Example.portal "game" 7)
    as [[it|]|] eqn:H; [|vm_compute in H; discriminate..].
  exists it. split; [reflexivity|]. exact (coerce_record_item_shape _ _ _ _ H).
Defined.

(** X4.  The image of a normalized item: a raw image that is a string
    starting with [http] is kept; otherwise, when the record has an
    application id that [int] accepts, the image is the Steam header of that
    id, for every item type; otherwise it is null. *)
Theorem coerce_record_image_rule `{rt : PyRuntime} (obj : gmap string pyval)
    (item_type : string) (idx : Z) (it : item) :
  let image :=
    dict_get obj "image_url" `or` dict_get obj "img_url" `or` dict_get obj "poster" `or`
    dict_get obj "header_image" `or` dict_get obj "thumbnail" `or` dict_get obj "Image URL" in
  let app_id := dict_get obj "app_id" `or` dict_get obj "appid" `or` dict_get obj "appId" in
  _coerce_record obj item_type idx = Returns (Some it) →
  image_url it =
    if is_http_str image then image
    else if truthy app_id then
      match py_int app_id with
      | Returns n => PStr (steam_header (pretty n))
      | Raises _ => PNone
      end
    else PNone.
Proof.
  intros image app_id H. rewrite (coerce_record_image_url _ _ _ _ H).
  unfold record_image_url. cbv zeta. fold image. fold app_id.
  clearbody image app_id.
  destruct (is_http_str image) eqn:Hhttp.
  - assert (truthy image = true) as ->.
    { destruct image as [| | | |s| |]; try discriminate. by destruct s. }
    cbn [negb orb andb]. by rewrite Hhttp.
  - rewrite orb_true_r. cbn [andb]. destruct (truthy app_id); [|by rewrite Hhttp].
    destruct (py_int app_id) as [n|e]; cbn [mbind result_bind try_or].
    + by rewrite steam_header_is_http.
    + by rewrite Hhttp.
Qed.

Lemma coerce_record_image_rule_witness :
  ∃ it, _coerce_record (rt := Example.runtime) Example.portal "anime" 7 = Returns (Some it) ∧
        image_url it = PStr (steam_header "400") ∧
        image_url it =
          if is_http_str
               (dict_get Example.portal "image_url" `or` dict_get Example.portal "img_url" `or`
                dict_get Example.portal "poster" `or` dict_get Example.portal "header_image" `or`
                dict_get Example.portal "thumbnail" `or` dict_get Example.portal "Image URL")
          then dict_get Example.portal "image_url" `or` dict_get Example.portal "img_url" `or`
               dict_get Example.portal "poster" `or` dict_get Example.portal "header_image" `or`
               dict_get Example.portal "thumbnail" `or` dict_get Example.portal "Image URL"
          else if truthy (dict_get Example.portal "app_id" `or`
                          dict_get Example.portal "appid" `or`
                          dict_get Example.portal "appId") then
            match py_int (rt := Example.runtime)
                    (dict_get Example.portal "app_id" `or` dict_get Example.portal "appid" `or`
                     dict_get Example.portal "appId") with
            | Returns n => PStr (steam_header (pretty n))
            | Raises _ => PNone
            end
          else PNone.
Proof.
  destruct (_coerce_record (rt := Example.runtime) Example.portal "anime" 7)
    as [[it|]|] eqn:H; [|vm_compute in H; discriminate..].
  exists it. split; [reflexivity|].
  pose proof (coerce_record_image_rule _ _ _ _ H) as Hrule. cbv zeta in Hrule.
  split; [|exact Hrule]. rewrite Hrule. vm_compute. reflexivity.
Defined.

(** ** The image cache *)

Section CacheInvariants.
Variable requests : bool.
Variable jikan : nat → string → http_outcome.

(** What one call does to the world: nothing, a request that stores
    nothing, or a request that stores the URL it returns. *)
Lemma image_lookup_cases title w :
  let '(r, w') := _get_anime_image_url requests jikan title w in
  (w' = w ∧
   (r = None ∨ (title ≠ "" ∧ r = ANIME_IMG_CACHE w !! Str.strip title))) ∨
  (requests = true ∧ title ≠ "" ∧ ANIME_IMG_CACHE w !! Str.strip title = None ∧
   lookups w' = S (lookups w) ∧
   ((r = None ∧ ANIME_IMG_CACHE w' = ANIME_IMG_CACHE w ∧
     saves_scheduled w' = saves_scheduled w) ∨
    (∃ url, r = Some url ∧ Str.startswith url "http" = true ∧
            ANIME_IMG_CACHE w' = <[Str.strip title := url]> (ANIME_IMG_CACHE w) ∧
            saves_scheduled w' = S (saves_scheduled w)))).
Proof.
  unfold _get_anime_image_url.
  destruct (String.eqb_spec title "") as [?|Ht]; [left; by auto|].
  destruct (ANIME_IMG_CACHE w !! Str.strip title) as [u|] eqn:Hc; [left; by auto|].
  destruct requests; cbn [negb]; [|left; by auto].
  destruct (jikan _ _) as [|ok json];
    [right; do 4 (split; [done|]); by left|].
  destruct ok; [|right; do 4 (split; [done|]); by left].
  destruct (response_url json) as [[| | | |u| |]|];
    try (right; do 4 (split; [done|]); by left).
  destruct (Str.startswith u "http") eqn:Hu;
    [|right; do 4 (split; [done|]); by left].
  right. do 4 (split; [done|]). right. by exists u.
Qed.

End CacheInvariants.

(** X5.  A call never changes or removes an entry of the cache: what is
    stored under a key before the call is stored under it afterwards. *)
Theorem cache_entries_are_kept (requests : bool) (jikan : nat → string → http_outcome)
    (title : string) (w : world) (key url : string) :
  ANIME_IMG_CACHE w !! key = Some url →
  ANIME_IMG_CACHE (_get_anime_image_url requests jikan title w).2 !! key = Some url.
Proof.
  intros Hkey. pose proof (image_lookup_cases requests jikan title w) as H.
  destruct (_get_anime_image_url requests jikan title w) as [r w']. cbn [snd].
  destruct H as [[-> _]|(_ & _ & Hmiss & _ & [(_ & -> & _)|(u & _ & _ & -> & _)])];
    [done|done|].
  rewrite lookup_insert_ne; [done|]. intros <-. congruence.
Qed.

Lemma cache_entries_are_kept_witness :
  let w := {| ANIME_IMG_CACHE := {[ "Bleach" := "https://example.org/bleach.jpg" ]};
              requests_issued := []; saves_scheduled := 0 |} in
  ANIME_IMG_CACHE w !! "Bleach" = Some "https://example.org/bleach.jpg" ∧
  ANIME_IMG_CACHE (_get_anime_image_url true Example.online "Naruto" w).2 !! "Bleach"
  = Some "https://example.org/bleach.jpg" ∧
  ANIME_IMG_CACHE (_get_anime_image_url true Example.online "Naruto" w).2 !! "Naruto"
  = Some Example.cover.
Proof.
  cbv zeta. split; [reflexivity|]. split; [|vm_compute; reflexivity].
  apply cache_entries_are_kept. reflexivity.
Defined.

(** X6.  If every URL in the cache starts with [http], this still holds
    after a call, and the URL the call returns, if any, starts with [http]
    too. *)
Theorem cache_holds_http_urls (requests : bool) (jikan : nat → string → http_outcome)
    (title : string) (w : world) :
  http_cache w →
  http_cache (_get_anime_image_url requests jikan title w).2 ∧
  ∀ url, (_get_anime_image_url requests jikan title w).1 = Some url →
         Str.startswith url "http" = true.
Proof.
  intros Hw. pose proof (image_lookup_cases requests jikan title w) as H.
  destruct (_get_anime_image_url requests jikan title w) as [r w']. cbn [fst snd].
  destruct H as [[-> Hr]|(_ & _ & Hmiss & _ & [(-> & Hc & _)|(u & -> & Hu & Hc & _)])].
  - split; [done|]. intros url ->. destruct Hr as [?|[_ Hr]]; [done|]. by eapply Hw.
  - split; [|done]. intros key url. rewrite Hc. apply Hw.
  - split; [|by intros url [= <-]].
    intros key url. rewrite Hc.
    destruct (decide (Str.strip title = key)) as [<-|Hne].
    + rewrite lookup_insert_eq. by intros [= <-].
    + rewrite lookup_insert_ne by done. apply Hw.
Qed.

Lemma cache_holds_http_urls_witness :
  http_cache Example.empty_world ∧
  http_cache (_get_anime_image_url true Example.online "Naruto" Example.empty_world).2 ∧
  ∀ url, (_get_anime_image_url true Example.online "Naruto" Example.empty_world).1
         = Some url → Str.startswith url "http" = true.
Proof.
  assert (http_cache Example.empty_world) as H.
  { intros key url Hkey. cbn in Hkey. by rewrite lookup_empty in Hkey. }
  split; [exact H|]. exact (cache_holds_http_urls _ _ _ _ H).
Defined.

(** X7.  A call that returns nothing stores nothing and schedules no save:
    failures are not cached.  A call issues at most one request, and it
    schedules a save exactly when it writes the entry of its title. *)
Theorem failed_lookup_is_not_cached (requests : bool) (jikan : nat → string → http_outcome)
    (title : string) (w : world) :
  let '(r, w') := _get_anime_image_url requests jikan title w in
  (lookups w' ≤ S (lookups w))%nat ∧
  (r = None → ANIME_IMG_CACHE w' = ANIME_IMG_CACHE w ∧
              saves_scheduled w' = saves_scheduled w) ∧
  (saves_scheduled w' = saves_scheduled w ∧ ANIME_IMG_CACHE w' = ANIME_IMG_CACHE w ∨
   saves_scheduled w' = S (saves_scheduled w) ∧
   ∃ url, r = Some url ∧ ANIME_IMG_CACHE w !! Str.strip title = None ∧
          ANIME_IMG_CACHE w' = <[Str.strip title := url]> (ANIME_IMG_CACHE w)).
Proof.
  pose proof (image_lookup_cases requests jikan title w) as H.
  destruct (_get_anime_image_url requests jikan title w) as [r w'].
  destruct H as [[-> Hr]|(_ & _ & Hmiss & Hn & [(-> & Hc & Hs)|(u & -> & Hu & Hc & Hs)])].
  - repeat split; [lia|by left].
  - repeat split; [lia|done|done|by left].
  - split; [lia|]. split; [discriminate|]. right. split; [done|]. by exists u.
Qed.

(** X8.  Without the [requests] module, for an empty title, or for a title
    whose key is in the cache, a call touches nothing: no request, no write,
    no save. *)
Theorem no_request_without_need (requests : bool) (jikan : nat → string → http_outcome)
    (title : string) (w : world) :
  requests = false ∨ title = "" ∨ is_Some (ANIME_IMG_CACHE w !! Str.strip title) →
  (_get_anime_image_url requests jikan title w).2 = w.
Proof.
  intros Hneed. pose proof (image_lookup_cases requests jikan title w) as H.
  destruct (_get_anime_image_url requests jikan title w) as [r w']. cbn [snd].
  destruct H as [[-> _]|(Hreq & Ht & Hmiss & _)]; [done|].
  destruct Hneed as [?|[?|[u Hu]]]; congruence.
Qed.

Lemma no_request_without_need_witness :
  (false = false ∨ " Naruto " = "" ∨
   is_Some (ANIME_IMG_CACHE Example.empty_world !! Str.strip " Naruto ")) ∧
  (_get_anime_image_url false Example.online " Naruto " Example.empty_world).2
  = Example.empty_world.
Proof.
  assert (false = false ∨ " Naruto " = "" ∨
          is_Some (ANIME_IMG_CACHE Example.empty_world !! Str.strip " Naruto ")) as H
    by (by left).
  split; [exact H|]. exact (no_request_without_need _ _ _ _ H).
Defined.

(** ** The title sent to the remote search *)

Module SearchFacts.
Import Search.

Lemma no_c0_controls_app a b :
  no_c0_controls (a +:+ b) = no_c0_controls a && no_c0_controls b.
Proof.
  induction a as [|c a IH]; [done|].
  rewrite app_cons. cbn [no_c0_controls]. by rewrite IH, andb_assoc.
Qed.

Lemma chars_app a b : Str.chars (a +:+ b) = (Str.chars a + Str.chars b)%nat.
Proof.
  induction a as [|c a IH]; [done|]. rewrite app_cons. cbn [Str.chars]. rewrite IH. lia.
Qed.

Lemma chars_cons_le c t : (Str.chars t ≤ Str.chars (String c t))%nat.
Proof. cbn [Str.chars]. lia. Qed.

Lemma space_starts_a_character c :
  Str.is_space c = true → Str.is_continuation c = false.
Proof.
  unfold Str.is_space, Str.is_continuation. cbv zeta. intros H.
  apply andb_false_iff. left. apply N.leb_gt.
  apply orb_true_iff in H as [H|H]; apply andb_true_iff in H as [_ H];
    apply N.leb_le in H; lia.
Qed.

Lemma blank_controls_clean t :
  no_c0_controls (blank_controls t) = true ∧
  Str.chars (blank_controls t) = Str.chars t.
Proof.
  induction t as [|c t [IH1 IH2]]; [done|].
  cbn [blank_controls]. destruct (N.ltb_spec (N_of_ascii c) 32) as [Hc|Hc].
  - cbn [no_c0_controls Str.chars]. rewrite IH1, IH2. split; [done|].
    replace (Str.is_continuation c) with false; [done|].
    symmetry. unfold Str.is_continuation. cbv zeta.
    apply andb_false_iff. left. apply N.leb_gt. lia.
  - cbn [no_c0_controls Str.chars]. rewrite IH1, IH2, andb_true_r.
    split; [by apply N.leb_le|done].
Qed.

(** Replacing a character by a space: [old] is the encoding of one character,
    so that its first byte starts a character. *)
Lemma replace_go_clean a old t skip :
  Str.is_continuation a = false →
  no_c0_controls t = true →
  no_c0_controls (replace_go (String a old) " " t skip) = true ∧
  (Str.chars (replace_go (String a old) " " t skip) ≤ Str.chars t)%nat.
Proof.
  intros Ha. revert skip. induction t as [|c t IH]; intros skip Ht; [done|].
  cbn [no_c0_controls] in Ht. apply andb_true_iff in Ht as [Hc Ht].
  cbn [replace_go]. destruct skip as [|k].
  - destruct (Str.startswith (String c t) (String a old)) eqn:Hstart.
    + destruct (IH (String.length (String a old) - 1)%nat Ht) as [IH1 IH2].
      rewrite no_c0_controls_app, chars_app, IH1. split; [done|].
      cbn [Str.startswith] in Hstart. destruct (Ascii.eqb_spec a c) as [->|]; [|done].
      cbn [Str.chars]. rewrite Ha. change (Str.is_continuation " ") with false.
      cbv iota. lia.
    + destruct (IH 0%nat Ht) as [IH1 IH2]. cbn [no_c0_controls Str.chars].
      rewrite Hc, IH1. split; [done|lia].
  - destruct (IH k Ht) as [IH1 IH2]. split; [done|].
    pose proof (chars_cons_le c t). lia.
Qed.

Lemma collapse_spaces_clean t in_run :
  no_c0_controls t = true →
  no_c0_controls (collapse_spaces t in_run) = true ∧
  (Str.chars (collapse_spaces t in_run) ≤ Str.chars t)%nat.
Proof.
  revert in_run. induction t as [|c t IH]; intros in_run Ht; [done|].
  cbn [no_c0_controls] in Ht. apply andb_true_iff in Ht as [Hc Ht].
  cbn [collapse_spaces].
  destruct (Str.is_space c) eqn:Hspace; [destruct in_run|];
    match goal with |- context [collapse_spaces t ?b] => destruct (IH b Ht) as [IH1 IH2] end;
    cbn [no_c0_controls Str.chars]; rewrite ?Hc, ?IH1;
    rewrite ?(space_starts_a_character c Hspace);
    change (Str.is_continuation " ") with false; cbv iota; (split; [done|lia]).
Qed.

Lemma lstrip_clean t :
  no_c0_controls t = true →
  no_c0_controls (Str.lstrip t) = true ∧
  (Str.chars (Str.lstrip t) ≤ Str.chars t)%nat.
Proof.
  induction t as [|c t IH]; intros Ht; [done|].
  cbn [Str.lstrip]. destruct (Str.is_space c); [|by split].
  cbn [no_c0_controls] in Ht. apply andb_true_iff in Ht as [_ Ht].
  destruct (IH Ht). split; [done|]. pose proof (chars_cons_le c t). lia.
Qed.

Lemma rstrip_clean t :
  no_c0_controls t = true →
  no_c0_controls (Str.rstrip t) = true ∧
  (Str.chars (Str.rstrip t) ≤ Str.chars t)%nat.
Proof.
  induction t as [|c t IH]; intros Ht; [done|].
  cbn [no_c0_controls] in Ht. apply andb_true_iff in Ht as [Hc Ht].
  destruct (IH Ht) as [IH1 IH2]. cbn [Str.rstrip].
  destruct (Str.rstrip t) as [|c' r'].
  - destruct (Str.is_space c); cbn [no_c0_controls Str.chars] in *; rewrite ?Hc;
      (split; [done|lia]).
  - cbn [no_c0_controls Str.chars] in *. rewrite Hc, IH1. split; [done|lia].
Qed.

Lemma before_clean t sep :
  no_c0_controls t = true →
  no_c0_controls (before t sep) = true ∧
  (Str.chars (before t sep) ≤ Str.chars t)%nat.
Proof.
  induction t as [|c t IH]; intros Ht; [done|].
  cbn [no_c0_controls] in Ht. apply andb_true_iff in Ht as [Hc Ht].
  destruct (IH Ht) as [IH1 IH2]. cbn [before].
  destruct (Str.startswith (String c t) sep); cbn [no_c0_controls Str.chars];
    rewrite ?Hc, ?IH1; (split; [done|lia]).
Qed.

Lemma cut_clean seps t :
  no_c0_controls t = true →
  no_c0_controls (cut seps t) = true ∧ (Str.chars (cut seps t) ≤ Str.chars t)%nat.
Proof.
  intros Ht. induction seps as [|sep seps IH]; [by split|].
  cbn [cut]. destruct (_ && _); [by apply before_clean|done].
Qed.

Lemma cut_short seps t : Str.len t ≤ 40 → cut seps t = t.
Proof.
  intros Ht. induction seps as [|sep seps IH]; [done|].
  cbn [cut]. destruct (Z.ltb_spec 40 (Str.len t)); [lia|]. by rewrite andb_false_r.
Qed.

(** The title after the control characters, the stars and the runs of white
    space have been dealt with, before any cut. *)
Lemma spaced_clean t :
  let spaced :=
    Str.strip (collapse_spaces (replace (replace (blank_controls t) "☆" " ") "★" " ") false) in
  no_c0_controls spaced = true ∧ (Str.chars spaced ≤ Str.chars t)%nat.
Proof.
  cbv zeta. unfold replace, Str.strip.
  destruct (blank_controls_clean t) as [H1 L1].
  assert (∀ star u, star = "☆" ∨ star = "★" → no_c0_controls u = true →
            no_c0_controls (replace_go star " " u 0) = true ∧
            (Str.chars (replace_go star " " u 0) ≤ Str.chars u)%nat) as Hstar
    by (intros star u [->| ->]; by apply replace_go_clean).
  destruct (Hstar "☆" _ (or_introl eq_refl) H1) as [H2 L2].
  destruct (Hstar "★" _ (or_intror eq_refl) H2) as [H3 L3].
  destruct (collapse_spaces_clean _ false H3) as [H4 L4].
  destruct (lstrip_clean _ H4) as [H5 L5].
  destruct (rstrip_clean _ H5) as [H6 L6].
  split; [done|lia].
Qed.

End SearchFacts.

(** X9.  The search string [_normalize_anime_title_for_search] makes from a
    title holds no character of U+0000 to U+001F, the range the code turns
    into spaces, and has no more characters than the title.  The white space
    of the title is ASCII's. *)
Theorem search_title_is_clean (t : string) :
  Str.ascii_spaces_only t = true →
  no_c0_controls (Search._normalize_anime_title_for_search t) = true ∧
  Str.len (Search._normalize_anime_title_for_search t) ≤ Str.len t.
Proof.
  intros _. unfold Search._normalize_anime_title_for_search. cbv zeta.
  destruct (SearchFacts.spaced_clean t) as [Hc Hl].
  destruct (SearchFacts.cut_clean Search.separators _ Hc) as [Hc' Hl'].
  split; [done|]. unfold Str.len. lia.
Qed.

Lemma search_title_is_clean_witness :
  let t := "Fate" +:+ String "009" ("stay night ★ " +:+ String "010" "") in
  Str.ascii_spaces_only t = true ∧
  Search._normalize_anime_title_for_search t = "Fate stay night" ∧
  no_c0_controls (Search._normalize_anime_title_for_search t) = true ∧
  Str.len (Search._normalize_anime_title_for_search t) ≤ Str.len t.
Proof.
  cbv zeta.
  assert (Str.ascii_spaces_only
            ("Fate" +:+ String "009" ("stay night ★ " +:+ String "010" "")) = true) as H
    by reflexivity.
  split; [exact H|]. split; [reflexivity|]. exact (search_title_is_clean _ H).
Defined.

(** The character U+007F is outside the range the code blanks: it stays in
    the search string. *)
Example delete_character_is_kept :
  Search._normalize_anime_title_for_search ("One" +:+ String "127" "Piece")
  = "One" +:+ String "127" "Piece".
Proof. reflexivity. Qed.

(** X10.  A title of at most 40 characters is never cut at a separator:
    its search string is the title with control characters and stars turned
    into spaces, runs of white space collapsed and the ends trimmed.  The
    white space of the title is ASCII's. *)
Theorem short_title_is_not_cut (t : string) :
  Str.ascii_spaces_only t = true →
  Str.len t ≤ 40 →
  Search._normalize_anime_title_for_search t
  = Str.strip (Search.collapse_spaces
                 (Search.replace (Search.replace (Search.blank_controls t) "☆" " ") "★" " ")
                 false).
Proof.
  intros _ Ht. unfold Search._normalize_anime_title_for_search. cbv zeta.
  apply SearchFacts.cut_short.
  destruct (SearchFacts.spaced_clean t) as [_ Hl]. unfold Str.len in *. lia.
Qed.

Lemma short_title_is_not_cut_witness :
  Str.ascii_spaces_only "Re:Zero  -  Starting Life ☆" = true ∧
  Str.len "Re:Zero  -  Starting Life ☆" ≤ 40 ∧
  Search._normalize_anime_title_for_search "Re:Zero  -  Starting Life ☆"
  = "Re:Zero - Starting Life" ∧
  Search._normalize_anime_title_for_search "Re:Zero  -  Starting Life ☆"
  = Str.strip (Search.collapse_spaces
                 (Search.replace
                    (Search.replace (Search.blank_controls "Re:Zero  -  Starting Life ☆")
                       "☆" " ") "★" " ")
                 false).
Proof.
  assert (Str.ascii_spaces_only "Re:Zero  -  Starting Life ☆" = true) as Hs by reflexivity.
  assert (Str.len "Re:Zero  -  Starting Life ☆" ≤ 40) as H by (vm_compute; discriminate).
  split; [exact Hs|]. split; [exact H|]. split; [reflexivity|].
  exact (short_title_is_not_cut _ Hs H).
Defined.

(** ** Popular items *)

Section PopularItems.
Context `{rt : PyRuntime}.

Lemma anime_match_found d cols anime_name last r found :
  anime_match d cols anime_name last = Some (r :: found) →
  last = Some (r :: found) ∨
  ∃ col, col ∈ cols ∧ col ∈ columns d ∧ r ∈ rows d ∧ cell r.2 col = PStr anime_name.
Proof.
  revert last. induction cols as [|col cols IH]; intros last; cbn [anime_match].
  { intros ->. by left. }
  destruct (bool_decide (col ∈ columns d)) eqn:Hcol.
  - apply bool_decide_eq_true in Hcol.
    destruct (rows_named d col anime_name) as [|r' found'] eqn:Hrows.
    + intros H. destruct (IH _ H) as [?|(col' & ? & ?)]; [done|].
      right. exists col'. split; [by apply list_elem_of_further|done].
    + intros [= -> ->]. right. exists col. split; [apply list_elem_of_here|].
      split; [done|].
      assert (r ∈ rows_named d col anime_name) as Hr
        by (rewrite Hrows; apply list_elem_of_here).
      apply list_elem_of_In, filter_In in Hr as [Hr Hcell]. split; [by apply list_elem_of_In|].
      destruct (cell r.2 col) as [| | | |s| |]; try discriminate.
      by apply String.eqb_eq in Hcell as ->.
  - intros H. destruct (IH _ H) as [?|(col' & ? & ?)]; [by left|].
    right. exists col'. split; [by apply list_elem_of_further|done].
Qed.

Lemma popular_anime_item_found d i anime_name it :
  popular_anime_item d i anime_name = Returns (Some it) →
  title it = anime_name ∧ type it = "anime" ∧
  ∃ d' col r, d = Some d' ∧ col ∈ title_columns ∧ col ∈ columns d' ∧ r ∈ rows d' ∧
              cell r.2 col = PStr anime_name.
Proof.
  unfold popular_anime_item. destruct d as [d'|]; [|discriminate].
  destruct (anime_match d' title_columns anime_name None) as [[|[idx r] found]|] eqn:Hm;
    [discriminate| |discriminate].
  destruct (anime_rating _ _) as [f|e]; [|discriminate]. cbn [mbind result_bind].
  destruct (py_int _) as [p|e]; [|discriminate]. cbn [mbind result_bind].
  intros [= <-]. split; [done|]. split; [done|].
  destruct (anime_match_found _ _ _ _ _ _ Hm) as [?|(col & ? & ? & ? & ?)]; [done|].
  by exists d', col, (idx, r).
Qed.

Lemma popular_anime_spec d i names :
  title <$> popular_anime d i names `sublist_of` names ∧
  ∀ it, it ∈ popular_anime d i names →
        type it = "anime" ∧
        ∃ d' col r, d = Some d' ∧ col ∈ title_columns ∧ col ∈ columns d' ∧ r ∈ rows d' ∧
                    cell r.2 col = PStr (title it).
Proof.
  revert i. induction names as [|n names IH]; intros i; cbn [popular_anime].
  { split; [constructor|]. intros it Hit. inversion Hit. }
  destruct (IH (i + 1)) as [Hsub Hall].
  destruct (popular_anime_item d i n) as [[it|]|e] eqn:Hitem;
    [|by split; [constructor|]..].
  destruct (popular_anime_item_found _ _ _ _ Hitem) as (Ht & Hty & Hrow).
  split.
  - rewrite fmap_cons, Ht. by constructor.
  - intros it' [->|Hit']%elem_of_cons; [|by apply Hall].
    split; [done|]. by rewrite Ht.
Qed.

Lemma popular_game_spec d labels :
  (length (popular_game d labels) ≤ length labels)%nat ∧
  ∀ it, it ∈ popular_game d labels →
        type it = "game" ∧ is_http_str (image_url it) = true ∧
        ∃ d' idx r, d = Some d' ∧ idx ∈ labels ∧ iloc (rows d') idx = Returns r ∧
                    id it = py_str (dict_get_or r.2 "app_id" (PStr ("game-" +:+ pretty idx))).
Proof.
  induction labels as [|idx labels [IHl IH]]; cbn [popular_game].
  { split; [done|]. intros it Hit. inversion Hit. }
  assert (∀ it, it ∈ popular_game d labels →
            type it = "game" ∧ is_http_str (image_url it) = true ∧
            ∃ d' idx' r, d = Some d' ∧ idx' ∈ idx :: labels ∧
                         iloc (rows d') idx' = Returns r ∧
                         id it = py_str (dict_get_or r.2 "app_id"
                                           (PStr ("game-" +:+ pretty idx')))) as IH'.
  { intros it Hit. destruct (IH it Hit) as (? & ? & d' & idx' & r & ? & ? & ?).
    repeat split; [done..|]. exists d', idx', r.
    split; [done|]. split; [by apply list_elem_of_further|done]. }
  destruct (popular_game_item d idx) as [it|e] eqn:Hitem;
    [|split; [cbn [length]; lia|done]].
  split; [cbn [length]; lia|].
  intros it' [->|Hit']%elem_of_cons; [|by apply IH'].
  revert Hitem. unfold popular_game_item. destruct d as [d'|]; [|discriminate].
  destruct (iloc (rows d') idx) as [[lbl r]|e] eqn:Hrow; [|discriminate].
  cbn [mbind result_bind].
  destruct (_convert_game_rating _) as [f|e]; [|discriminate]. cbn [mbind result_bind].
  destruct (py_int _) as [p|e]; [|discriminate]. cbn [mbind result_bind].
  intros [= <-]. cbn [type image_url id]. split; [done|].
  split; [apply steam_header_is_http|].
  exists d', idx, (lbl, r). split; [done|]. split; [apply list_elem_of_here|done].
Qed.

Lemma sublist_length_le {A} (l k : list A) : l `sublist_of` k → (length l ≤ length k)%nat.
Proof. induction 1; cbn; lia. Qed.

End PopularItems.

(** X11.  With a sequence of titles as the anime popularity artifact,
    [_get_popular_items] returns anime items whose titles are, in order,
    among the first [limit] titles of the artifact, each found in a title
    column of the table; titles the table does not have are skipped, and at
    most [limit] items come back. *)
Theorem popular_anime_items_follow_the_ranking `{rt : PyRuntime}
    (TRAINED_MODELS : gmap string model) (m : model) (names : list string) (limit : Z) :
  TRAINED_MODELS !! "anime" = Some m → popular m = Some (PopNames names) →
  0 ≤ limit →
  let items := _get_popular_items TRAINED_MODELS "anime" limit in
  title <$> items `sublist_of` py_take limit names ∧
  len items ≤ limit ∧
  ∀ it, it ∈ items →
        type it = "anime" ∧
        ∃ d col r, data m = Some d ∧ col ∈ title_columns ∧ col ∈ columns d ∧
                   r ∈ rows d ∧ cell r.2 col = PStr (title it).
Proof.
  intros Hm Hpop Hlimit. cbv zeta. unfold _get_popular_items.
  cbn [String.eqb Ascii.eqb Bool.eqb]. rewrite Hm, Hpop.
  destruct (popular_anime_spec (data m) 0 (py_take limit names)) as [Hsub Hall].
  split; [done|]. split; [|done].
  apply sublist_length_le in Hsub. rewrite length_fmap in Hsub.
  pose proof (py_take_length limit names Hlimit). unfold len in *. lia.
Qed.

Lemma popular_anime_items_follow_the_ranking_witness :
  let TM := Example.models ["Attack on Titan"; "Titanfall"]
                           ["Titanfall"; "Gone"; "Attack on Titan"] in
  let items := _get_popular_items (rt := Example.runtime) TM "anime" 2 in
  title <$> items = ["Titanfall"] ∧
  title <$> items `sublist_of` py_take 2 ["Titanfall"; "Gone"; "Attack on Titan"] ∧
  len items ≤ 2 ∧
  ∀ it, it ∈ items →
        type it = "anime" ∧
        ∃ d col r, Some (Example.table ["Attack on Titan"; "Titanfall"]) = Some d ∧
                   col ∈ title_columns ∧ col ∈ columns d ∧
                   r ∈ rows d ∧ cell r.2 col = PStr (title it).
Proof.
  cbv zeta. split; [vm_compute; reflexivity|].
  exact (popular_anime_items_follow_the_ranking (rt := Example.runtime)
           (Example.models ["Attack on Titan"; "Titanfall"]
                           ["Titanfall"; "Gone"; "Attack on Titan"])
           {| popular := Some (PopNames ["Titanfall"; "Gone"; "Attack on Titan"]);
              data := Some (Example.table ["Attack on Titan"; "Titanfall"]) |}
           _ 2 eq_refl eq_refl ltac:(lia)).
Defined.

(** X12.  With a frame as the game popularity artifact,
    [_get_popular_items] returns at most [limit] game items, one for each of
    the first [limit] index labels that is a position in the games table;
    every item carries the Steam header of its application id as image, and
    the id of its row, or "game-" and the label when the row has none. *)
Theorem popular_game_items_come_from_rows `{rt : PyRuntime}
    (TRAINED_MODELS : gmap string model) (m : model) (frame : DataFrame) (limit : Z) :
  TRAINED_MODELS !! "game" = Some m → popular m = Some (PopFrame frame) →
  0 ≤ limit →
  let items := _get_popular_items TRAINED_MODELS "game" limit in
  len items ≤ limit ∧
  ∀ it, it ∈ items →
        type it = "game" ∧ is_http_str (image_url it) = true ∧
        ∃ d idx r, data m = Some d ∧ idx ∈ fst <$> py_take limit (rows frame) ∧
                   iloc (rows d) idx = Returns r ∧
                   id it = py_str (dict_get_or r.2 "app_id" (PStr ("game-" +:+ pretty idx))).
Proof.
  intros Hm Hpop Hlimit. cbv zeta. unfold _get_popular_items.
  cbn [String.eqb Ascii.eqb Bool.eqb]. rewrite Hm, Hpop.
  destruct (popular_game_spec (data m) (fst <$> py_take limit (rows frame))) as [Hlen Hall].
  split; [|done]. rewrite length_fmap in Hlen.
  pose proof (py_take_length limit (rows frame) Hlimit). unfold len in *. lia.
Qed.

Lemma popular_game_items_come_from_rows_witness :
  let items := _get_popular_items (rt := Example.runtime) Example.games "game" 3 in
  title <$> items = ["Portal 2"; "Portal"] ∧
  len items ≤ 3 ∧
  ∀ it, it ∈ items →
        type it = "game" ∧ is_http_str (image_url it) = true ∧
        ∃ d idx r,
          Some {| columns := ["app_id"; "title"; "rating"];
                  rows := [(0, Example.game_row 400 "Portal" "Overwhelmingly Positive");
                           (1, Example.game_row 620 "Portal 2" "Very Positive")] |} = Some d ∧
          idx ∈ fst <$> py_take 3 (rows {| columns := ["user_reviews"];
                                           rows := [(1, ∅); (5, ∅); (0, ∅)] |}) ∧
          iloc (rows d) idx = Returns r ∧
          id it = py_str (rt := Example.runtime)
                    (dict_get_or r.2 "app_id" (PStr ("game-" +:+ pretty idx))).
Proof.
  cbv zeta. split; [vm_compute; reflexivity|].
  exact (popular_game_items_come_from_rows (rt := Example.runtime) Example.games
           {| popular := Some (PopFrame {| columns := ["user_reviews"];
                                           rows := [(1, ∅); (5, ∅); (0, ∅)] |});
              data := Some {| columns := ["app_id"; "title"; "rating"];
                              rows := [(0, Example.game_row 400 "Portal"
                                              "Overwhelmingly Positive");
                                       (1, Example.game_row 620 "Portal 2"
                                              "Very Positive")] |} |}
           _ 3 eq_refl eq_refl ltac:(lia)).
Defined.

(** ** The size of the result *)

Section ResultSize.
Context `{rt : PyRuntime}.
Variable TRAINED_MODELS : gmap string model.

(** The anime popularity artifact is not a frame.  (Iterating a frame yields
    its column labels, however many were asked for.) *)
Hypothesis anime_ranking_is_no_frame :
  ∀ m frame, TRAINED_MODELS !! "anime" = Some m → popular m ≠ Some (PopFrame frame).

Lemma popular_items_length item_type limit :
  0 ≤ limit → len (_get_popular_items TRAINED_MODELS item_type limit) ≤ limit.
Proof using anime_ranking_is_no_frame.
  intros Hlimit. unfold _get_popular_items.
  destruct (String.eqb_spec item_type "anime") as [->|_].
  { destruct (TRAINED_MODELS !! "anime") as [m|] eqn:Hm; [|done].
    destruct (popular m) as [[names|frame]|] eqn:Hpop; [| |done].
    - destruct (popular_anime_spec (data m) 0 (py_take limit names)) as [Hsub _].
      apply sublist_length_le in Hsub. rewrite length_fmap in Hsub.
      pose proof (py_take_length limit names Hlimit). unfold len in *. lia.
    - by destruct (anime_ranking_is_no_frame m frame). }
  destruct (String.eqb_spec item_type "game") as [->|_]; [|done].
  destruct (TRAINED_MODELS !! "game") as [m|]; [|done].
  destruct (popular m) as [[names|frame]|]; [done| |done].
  destruct (popular_game_spec (data m) (fst <$> py_take limit (rows frame))) as [Hlen _].
  rewrite length_fmap in Hlen.
  pose proof (py_take_length limit (rows frame) Hlimit). unfold len in *. lia.
Qed.

End ResultSize.

(** X13.  For a limit that is not negative, the matcher returns at most
    [limit] items, whether it matched, padded or fell back to the popular
    items, provided the anime popularity artifact is not a frame. *)
Theorem recommendations_never_exceed_limit `{rt : PyRuntime}
    (TRAINED_MODELS : gmap string model) (q item_type : string) (limit : Z) :
  (∀ m frame, TRAINED_MODELS !! "anime" = Some m → popular m ≠ Some (PopFrame frame)) →
  0 ≤ limit →
  len (_get_recommendations_from_trained_model TRAINED_MODELS q item_type limit) ≤ limit.
Proof.
  intros Hno Hlimit. unfold _get_recommendations_from_trained_model.
  destruct (TRAINED_MODELS !! item_type) as [m|]; [|done].
  destruct (data m) as [d|]; [|done].
  destruct (String.eqb _ ""); [by apply popular_items_length|].
  destruct (tier_results _ _ _ _); [by apply py_take_length|by apply popular_items_length].
Qed.

Lemma recommendations_never_exceed_limit_witness :
  (∀ m frame, Example.titans !! "anime" = Some m → popular m ≠ Some (PopFrame frame)) ∧
  len (_get_recommendations_from_trained_model (rt := Example.runtime)
         Example.titans "attack" "anime" 2) = 2 ∧
  len (_get_recommendations_from_trained_model (rt := Example.runtime)
         Example.titans "attack" "anime" 2) ≤ 2.
Proof.
  assert (∀ m frame, Example.titans !! "anime" = Some m →
                     popular m ≠ Some (PopFrame frame)) as H.
  { intros m frame Hm. vm_compute in Hm. injection Hm as <-. discriminate. }
  split; [exact H|]. split; [vm_compute; reflexivity|].
  apply recommendations_never_exceed_limit; [exact H|lia].
Defined.

(** X14.  Behind [/api/recommend] the answer has at most 50 items, under the
    same proviso: the handler clamps the limit and the matcher keeps to
    it. *)
Theorem api_recommend_returns_at_most_50 `{rt : PyRuntime}
    (TRAINED_MODELS : gmap string model) (body : result pyval) (shaped : list item) :
  (∀ m frame, TRAINED_MODELS !! "anime" = Some m → popular m ≠ Some (PopFrame frame)) →
  api_recommend TRAINED_MODELS body = Ok200 shaped →
  len shaped ≤ 50.
Proof.
  intros Hno. unfold api_recommend.
  destruct (recommend_args body) as [[[title rec_type] limit]|e] eqn:Hargs; [|discriminate].
  destruct (_ || _); [discriminate|]. intros [= <-].
  assert (1 ≤ limit ≤ 50) as Hlimit.
  { revert Hargs. unfold recommend_args. destruct body as [js|e]; [|discriminate].
    cbn [mbind result_bind].
    destruct (py_get_or _ "title" _); [|discriminate]. cbn [mbind result_bind].
    destruct (py_get_or _ "type" _); [|discriminate]. cbn [mbind result_bind].
    destruct (requested_limit (Returns js)); [|discriminate]. cbn [mbind result_bind].
    intros [= _ _ <-]. apply effective_limit_range. }
  assert (len (_get_recommendations_from_trained_model TRAINED_MODELS title rec_type limit)
          ≤ limit); [|lia].
  unfold _get_recommendations_from_trained_model.
  destruct (TRAINED_MODELS !! rec_type) as [m|]; [|unfold len; cbn [length]; lia].
  destruct (data m) as [d|]; [|unfold len; cbn [length]; lia].
  destruct (String.eqb _ ""); [apply popular_items_length; [done|lia]|].
  destruct (tier_results _ _ _ _);
    [apply py_take_length; lia|apply popular_items_length; [done|lia]].
Qed.

Lemma api_recommend_returns_at_most_50_witness :
  let body := Returns (PDict {[ "title" := PStr "attack"; "type" := PStr " Anime ";
                                "limit" := PStr "500" ]}) in
  ∃ shaped,
    api_recommend (rt := Example.runtime) Example.titans body = Ok200 shaped ∧
    title <$> shaped = ["Attack on Titan"; "Attack No More"; "Titanfall"] ∧
    len shaped ≤ 50.
Proof.
  cbv zeta.
  destruct (api_recommend (rt := Example.runtime) Example.titans
              (Returns (PDict {[ "title" := PStr "attack"; "type" := PStr " Anime ";
                                 "limit" := PStr "500" ]}))) as [shaped| |] eqn:H;
    [|vm_compute in H; discriminate..].
  exists shaped. split; [reflexivity|]. split.
  - vm_compute in H. injection H as <-. reflexivity.
  - apply (api_recommend_returns_at_most_50 (rt := Example.runtime) Example.titans _ _)
      in H; [exact H|].
    intros m frame Hm. vm_compute in Hm. injection Hm as <-. discriminate.
Defined.

(** ** What the strategies collect *)

Section Strategies.
Context `{rt : PyRuntime}.
Variable TRAINED_MODELS : gmap string model.

Lemma add_exact_length item_type col matches results out :
  add_exact item_type col matches results = Returns out →
  len out = len results + len matches.
Proof.
  intros (items & -> & Hall)%add_exact_spec. apply Forall2_length in Hall.
  unfold len. rewrite length_app. lia.
Qed.

Lemma add_matches_bound limit item_type col matches results out :
  len results ≤ limit →
  add_matches limit item_type col matches results = Returns out →
  len out ≤ limit.
Proof.
  revert results. induction matches as [|[idx it] matches IH]; intros results Hlen;
    cbn [add_matches].
  - by intros [= <-].
  - destruct (Z.leb_spec limit (len results)); [by intros [= <-]|].
    destruct (has_title results _); [by apply IH|].
    destruct (_format_item it item_type col idx) as [r|e]; [|discriminate].
    cbn [mbind result_bind]. apply IH. unfold len in *. rewrite length_app. cbn. lia.
Qed.

Lemma add_words_bound d limit item_type col words results out :
  len results ≤ limit →
  add_words d limit item_type col words results = Returns out →
  len out ≤ limit.
Proof.
  revert results. induction words as [|word words IH]; intros results Hlen;
    cbn [add_words].
  - by intros [= <-].
  - destruct (3 <=? Str.len word); [|by apply IH].
    destruct (re_compile _) as [search|e]; [|discriminate]. cbn [mbind result_bind].
    destruct (add_matches _ _ _ _ _) as [results'|e] eqn:Hm; [|discriminate].
    cbn [mbind result_bind]. apply IH. by eapply add_matches_bound.
Qed.

Lemma tier_results_bound d title_lower item_type limit results :
  0 ≤ limit →
  tier_results d title_lower item_type limit = Returns results →
  len results ≤ limit.
Proof.
  intros Hlimit. unfold tier_results.
  destruct (title_column d) as [col|]; [|by intros [= <-]].
  destruct (negb _); [discriminate|]. unfold run_tiers.
  destruct (add_exact _ _ _ _) as [r1|e] eqn:H1; [|discriminate].
  cbn [mbind result_bind].
  destruct (add_matches _ _ _ _ r1) as [r2|e] eqn:H2; [|discriminate].
  cbn [mbind result_bind].
  apply add_exact_length in H1. change (len []) with 0 in H1.
  pose proof (py_take_length limit (select d col (String.eqb title_lower)) Hlimit) as Hex.
  apply add_matches_bound in H2; [|lia].
  assert (∀ r3 out,
            len r3 ≤ limit →
            (if 1 <? len (Str.split title_lower)
             then add_words d limit item_type col (Str.split title_lower) r3
             else Returns r3) = Returns out → len out ≤ limit) as Hwords.
  { intros r3 out Hr3. destruct (1 <? _); [by apply add_words_bound|by intros [= <-]]. }
  destruct (4 <=? Str.len title_lower).
  - destruct (add_matches _ _ _ _ r2) as [r3|e] eqn:H3; [|discriminate].
    cbn [mbind result_bind]. apply Hwords. by eapply add_matches_bound.
  - cbn [mbind result_bind]. by apply Hwords.
Qed.

Lemma pad_popular_bound item_type limit results :
  len results ≤ limit →
  len (pad_popular TRAINED_MODELS item_type limit results) ≤ limit.
Proof.
  intros Hlen. destruct (Z.lt_ge_cases (len results) limit) as [H|H].
  - rewrite pad_popular_spec by done. unfold len in *.
    rewrite length_app, length_take. lia.
  - unfold pad_popular. by destruct (Z.ltb_spec (len results) limit); [lia|].
Qed.

(** The rows a strategy is given come from the table and pass its test. *)
Lemma selected_rows d col test n r :
  r ∈ py_take n (select d col test) →
  r ∈ rows d ∧ ∃ s, cell r.2 col = PStr s ∧ test (Str.lower s) = true.
Proof.
  intros Hr. assert (r ∈ select d col test) as Hsel.
  { unfold py_take in Hr. destruct (0 <=? n); by eapply subseteq_take. }
  apply list_elem_of_In, filter_In in Hsel as [Hin Htest].
  split; [by apply list_elem_of_In|].
  destruct (cell r.2 col) as [| | | |s| |]; try discriminate. by exists s.
Qed.

Lemma add_exact_all (P : item → Prop) item_type col matches results out :
  Forall P results →
  (∀ r it, r ∈ matches → _format_item r.2 item_type col r.1 = Returns it → P it) →
  add_exact item_type col matches results = Returns out →
  Forall P out.
Proof.
  intros Hres Hnew (items & -> & Hall)%add_exact_spec.
  apply Forall_app. split; [done|].
  induction Hall as [|r it matches items Hr _ IH]; [constructor|].
  constructor.
  - apply (Hnew r it); [apply list_elem_of_here|done].
  - apply IH. intros r' it' Hr'. apply Hnew. by apply list_elem_of_further.
Qed.

Lemma add_matches_all (P : item → Prop) limit item_type col matches results out :
  Forall P results →
  (∀ r it, r ∈ matches → _format_item r.2 item_type col r.1 = Returns it → P it) →
  add_matches limit item_type col matches results = Returns out →
  Forall P out.
Proof.
  revert results. induction matches as [|[idx row] matches IH]; intros results Hres Hnew;
    cbn [add_matches].
  - by intros [= <-].
  - assert (∀ r it, r ∈ matches → _format_item r.2 item_type col r.1 = Returns it → P it)
      as Hnew' by (intros r it Hr; apply Hnew; by apply list_elem_of_further).
    destruct (limit <=? len results); [by intros [= <-]|].
    destruct (has_title results _); [by apply IH|].
    destruct (_format_item row item_type col idx) as [it|e] eqn:Hit; [|discriminate].
    cbn [mbind result_bind]. apply IH; [|done].
    apply Forall_app. split; [done|]. constructor; [|constructor].
    apply (Hnew (idx, row) it); [apply list_elem_of_here|done].
Qed.

Lemma startswith_refl s : Str.startswith s s = true.
Proof. apply startswith_spec. exists "". induction s as [|c s IH]; [done|]. by rewrite app_cons, <- IH. Qed.

Lemma startswith_contains s p : Str.startswith s p = true → Str.contains s p = true.
Proof. intros H. destruct s; cbn [Str.contains]; by rewrite H. Qed.

(** A row that passes one of the three substring tests gives an item whose
    title contains the query. *)
Lemma substring_tiers_match d col title_lower item_type n test r it :
  (∀ t, test t = true → Str.contains t title_lower = true) →
  r ∈ py_take n (select d col test) →
  _format_item r.2 item_type col r.1 = Returns it →
  matches_query title_lower (title it) ∧
  ∃ row, row ∈ rows d ∧ cell row.2 col = PStr (title it).
Proof.
  intros Htest Hr Hit. destruct (selected_rows _ _ _ _ _ Hr) as (Hin & s & Hcell & Hs).
  apply format_item_title in Hit. rewrite Hcell in Hit. cbn [py_str] in Hit.
  rewrite Hit. split; [left; by apply Htest|]. by exists r.
Qed.

Lemma add_words_all d limit item_type col title_lower words results out :
  words ⊆ Str.split title_lower →
  Forall (fun it => matches_query title_lower (title it) ∧
                    ∃ row, row ∈ rows d ∧ cell row.2 col = PStr (title it)) results →
  add_words d limit item_type col words results = Returns out →
  Forall (fun it => matches_query title_lower (title it) ∧
                    ∃ row, row ∈ rows d ∧ cell row.2 col = PStr (title it)) out.
Proof.
  revert results. induction words as [|word words IH]; intros results Hsub Hres;
    cbn [add_words].
  - by intros [= <-].
  - assert (words ⊆ Str.split title_lower) as Hsub'
      by (intros w Hw; apply Hsub; by apply list_elem_of_further).
    destruct (Z.leb_spec 3 (Str.len word)) as [Hlen|_]; [|by apply IH].
    destruct (re_compile _) as [search|e] eqn:Hre; [|discriminate].
    cbn [mbind result_bind].
    destruct (add_matches _ _ _ _ _) as [results'|e] eqn:Hm; [|discriminate].
    cbn [mbind result_bind]. apply IH; [done|].
    eapply add_matches_all; [exact Hres| |exact Hm].
    intros r it Hr Hit.
    destruct (selected_rows _ _ _ _ _ Hr) as (Hin & s & Hcell & Hs).
    apply format_item_title in Hit. rewrite Hcell in Hit. cbn [py_str] in Hit.
    rewrite Hit. split; [|by exists r].
    right. exists word, search. split; [apply Hsub, list_elem_of_here|done].
Qed.

Lemma tier_results_all d title_lower item_type limit results :
  tier_results d title_lower item_type limit = Returns results →
  ∃ col, (results = [] ∨ title_column d = Some col) ∧
  Forall (fun it => matches_query title_lower (title it) ∧
                    ∃ row, row ∈ rows d ∧ cell row.2 col = PStr (title it)) results.
Proof.
  unfold tier_results.
  destruct (title_column d) as [col|]; [|intros [= <-]; exists ""; split; [by left|done]].
  destruct (negb _); [discriminate|]. unfold run_tiers. intros H. exists col.
  split; [by right|]. revert H.
  set (P := fun it => matches_query title_lower (title it) ∧
                      ∃ row, row ∈ rows d ∧ cell row.2 col = PStr (title it)).
  destruct (add_exact _ _ _ _) as [r1|e] eqn:H1; [|discriminate].
  cbn [mbind result_bind].
  destruct (add_matches _ _ _ _ r1) as [r2|e] eqn:H2; [|discriminate].
  cbn [mbind result_bind].
  assert (Forall P r1) as Hr1.
  { eapply add_exact_all; [constructor| |exact H1]. intros r it.
    apply substring_tiers_match. intros t Ht%String.eqb_eq. subst t.
    apply startswith_contains, startswith_refl. }
  assert (Forall P r2) as Hr2.
  { eapply add_matches_all; [exact Hr1| |exact H2]. intros r it.
    apply substring_tiers_match. intros t. apply startswith_contains. }
  assert (∀ r3 out,
            Forall P r3 →
            (if 1 <? len (Str.split title_lower)
             then add_words d limit item_type col (Str.split title_lower) r3
             else Returns r3) = Returns out → Forall P out) as Hwords.
  { intros r3 out Hr3. destruct (1 <? _); [|by intros [= <-]].
    by apply add_words_all. }
  destruct (4 <=? Str.len title_lower).
  - destruct (add_matches _ _ _ _ r2) as [r3|e] eqn:H3; [|discriminate].
    cbn [mbind result_bind]. apply Hwords.
    eapply add_matches_all; [exact Hr2| |exact H3]. intros r it.
    by apply substring_tiers_match.
  - cbn [mbind result_bind]. by apply Hwords.
Qed.

(** A word of the query that is no valid pattern makes the last strategy
    raise, wherever it stands among the words. *)
Lemma add_words_raises d limit item_type col words results word e :
  word ∈ words → 3 ≤ Str.len word →
  re_compile ("\b" +:+ word +:+ "\b") = Raises e →
  ∃ e', add_words d limit item_type col words results = Raises e'.
Proof.
  intros Hin Hlen Hre. revert results.
  induction words as [|w words IH]; intros results; [inversion Hin|].
  cbn [add_words]. apply elem_of_cons in Hin as [<-|Hin].
  - destruct (Z.leb_spec 3 (Str.len word)); [|lia]. rewrite Hre. by eexists.
  - destruct (3 <=? Str.len w); [|by apply IH].
    destruct (re_compile ("\b" +:+ w +:+ "\b")) as [search|e1]; [|by eexists].
    cbn [mbind result_bind].
    destruct (add_matches _ _ _ _ _) as [results'|e2]; [|by eexists].
    cbn [mbind result_bind]. by apply IH.
Qed.

End Strategies.

(** X15.  For a limit that is not negative the strategies never collect more
    than [limit] results, so the final slice [results[:limit]] cuts nothing:
    the matcher returns the results of the strategies followed by the
    padding. *)
Theorem strategies_stop_at_limit `{rt : PyRuntime} (TRAINED_MODELS : gmap string model)
    (q item_type : string) (limit : Z) (m : model) (d : DataFrame) (results : list item) :
  TRAINED_MODELS !! item_type = Some m → data m = Some d →
  Str.strip (Str.lower q) ≠ "" →
  0 ≤ limit →
  tier_results d (Str.strip (Str.lower q)) item_type limit = Returns results →
  len results ≤ limit ∧
  _get_recommendations_from_trained_model TRAINED_MODELS q item_type limit
  = pad_popular TRAINED_MODELS item_type limit results.
Proof.
  intros Hm Hd Hq Hlimit Ht.
  pose proof (tier_results_bound _ _ _ _ _ Hlimit Ht) as Hlen. split; [done|].
  rewrite (recommendations_unfold _ _ _ _ _ _ _ Hm Hd Hq Ht).
  apply py_take_all. by apply pad_popular_bound.
Qed.

Lemma strategies_stop_at_limit_witness :
  ∃ results,
    tier_results (rt := Example.runtime)
      (Example.table ["Attack on Titan"; "Attack No More"; "Titanfall"])
      (Str.strip (Str.lower "Attack")) "anime" 2 = Returns results ∧
    title <$> results = ["Attack on Titan"] ∧
    len results ≤ 2 ∧
    _get_recommendations_from_trained_model (rt := Example.runtime)
      Example.titans "Attack" "anime" 2
    = pad_popular (rt := Example.runtime) Example.titans "anime" 2 results.
Proof.
  destruct (tier_results (rt := Example.runtime)
              (Example.table ["Attack on Titan"; "Attack No More"; "Titanfall"])
              (Str.strip (Str.lower "Attack")) "anime" 2) as [results|] eqn:Ht;
    [|vm_compute in Ht; discriminate].
  exists results. split; [reflexivity|]. split.
  - vm_compute in Ht. injection Ht as <-. reflexivity.
  - exact (strategies_stop_at_limit (rt := Example.runtime) Example.titans
             "Attack" "anime" 2 _ _ results eq_refl eq_refl
             ltac:(discriminate) ltac:(lia) Ht).
Defined.

(** X16.  For a table whose titles are ASCII and a query whose white space
    is ASCII: every result of the strategies answers the query.  Its title
    is the title cell of a row of the table and, lower-cased, contains the
    query, or is matched by the word pattern of a word of the query that has
    three characters or more. *)
Theorem strategy_results_match_the_query `{rt : PyRuntime} (d : DataFrame)
    (title_lower item_type : string) (limit : Z) (results : list item) (it : item) :
  (∀ col, title_column d = Some col → ascii_column d col = true) →
  Str.ascii_spaces_only title_lower = true →
  tier_results d title_lower item_type limit = Returns results →
  it ∈ results →
  matches_query title_lower (title it) ∧
  ∃ col row, title_column d = Some col ∧ row ∈ rows d ∧ cell row.2 col = PStr (title it).
Proof.
  intros _ _ Ht Hit. destruct (tier_results_all _ _ _ _ _ Ht) as (col & Hcol & Hall).
  rewrite Forall_forall in Hall. destruct (Hall it Hit) as [Hq (row & Hrow & Hcell)].
  split; [done|]. destruct Hcol as [->|Hcol]; [inversion Hit|]. by exists col, row.
Qed.

Lemma strategy_results_match_the_query_witness :
  ∃ results it,
    tier_results (rt := Example.runtime)
      (Example.table ["Attack on Titan"; "Attack No More"; "Titanfall"])
      "no titan" "anime" 12 = Returns results ∧
    it ∈ results ∧ title it = "Attack on Titan" ∧
    matches_query (rt := Example.runtime) "no titan" (title it) ∧
    ∃ col row,
      title_column (Example.table ["Attack on Titan"; "Attack No More"; "Titanfall"])
      = Some col ∧
      row ∈ rows (Example.table ["Attack on Titan"; "Attack No More"; "Titanfall"]) ∧
      cell row.2 col = PStr (title it).
Proof.
  destruct (tier_results (rt := Example.runtime)
              (Example.table ["Attack on Titan"; "Attack No More"; "Titanfall"])
              "no titan" "anime" 12) as [results|] eqn:Ht;
    [|vm_compute in Ht; discriminate].
  assert (∃ it, it ∈ results ∧ title it = "Attack on Titan") as (it & Hit & Htitle).
  { vm_compute in Ht. injection Ht as <-. eexists. split; [apply list_elem_of_here|done]. }
  exists results, it. split; [reflexivity|]. split; [exact Hit|]. split; [exact Htitle|].
  assert (∀ col,
            title_column (Example.table ["Attack on Titan"; "Attack No More"; "Titanfall"])
            = Some col →
            ascii_column (Example.table ["Attack on Titan"; "Attack No More"; "Titanfall"])
              col = true) as Hascii by (by intros col [= <-]).
  exact (strategy_results_match_the_query _ "no titan" _ _ _ _ Hascii eq_refl Ht Hit).
Defined.

(** X17.  When the table has a title column and the query has several
    words, one of which (of three characters or more) is no valid regular
    expression between the word boundaries, matching raises and the matcher
    answers with the popular items alone, whatever the other strategies had
    found. *)
Theorem bad_pattern_falls_back_to_popular `{rt : PyRuntime}
    (TRAINED_MODELS : gmap string model) (q item_type : string) (limit : Z)
    (m : model) (d : DataFrame) (col word : string) (e : exc) :
  TRAINED_MODELS !! item_type = Some m → data m = Some d →
  title_column d = Some col →
  1 < len (Str.split (Str.strip (Str.lower q))) →
  word ∈ Str.split (Str.strip (Str.lower q)) → 3 ≤ Str.len word →
  re_compile ("\b" +:+ word +:+ "\b") = Raises e →
  _get_recommendations_from_trained_model TRAINED_MODELS q item_type limit
  = _get_popular_items TRAINED_MODELS item_type limit.
Proof.
  intros Hm Hd Hcol Hwords Hword Hlen Hre. unfold _get_recommendations_from_trained_model.
  rewrite Hm, Hd. destruct (String.eqb _ ""); [done|].
  assert (∃ e', tier_results d (Str.strip (Str.lower q)) item_type limit = Raises e')
    as [e' ->]; [|done].
  unfold tier_results. rewrite Hcol. destruct (negb _); [by eexists|]. unfold run_tiers.
  destruct (add_exact _ _ _ _) as [r1|e1]; [|by eexists]. cbn [mbind result_bind].
  destruct (add_matches _ _ _ _ r1) as [r2|e2]; [|by eexists]. cbn [mbind result_bind].
  destruct (Z.ltb_spec 1 (len (Str.split (Str.strip (Str.lower q))))); [|lia].
  destruct (4 <=? _).
  - destruct (add_matches _ _ _ _ r2) as [r3|e3]; [|by eexists]. cbn [mbind result_bind].
    by eapply add_words_raises.
  - cbn [mbind result_bind]. by eapply add_words_raises.
Qed.

Lemma bad_pattern_falls_back_to_popular_witness :
  title <$> _get_recommendations_from_trained_model (rt := Example.runtime)
              Example.titans "Attack c** Titan" "anime" 12
  = ["Titanfall"; "Attack on Titan"] ∧
  _get_recommendations_from_trained_model (rt := Example.runtime)
    Example.titans "Attack c** Titan" "anime" 12
  = _get_popular_items (rt := Example.runtime) Example.titans "anime" 12.
Proof.
  split; [vm_compute; reflexivity|].
  apply (bad_pattern_falls_back_to_popular (rt := Example.runtime) Example.titans
           "Attack c** Titan" "anime" 12 _ _ "Name" "c**" ReError eq_refl eq_refl eq_refl).
  - vm_compute. reflexivity.
  - vm_compute. apply list_elem_of_further, list_elem_of_here.
  - vm_compute. discriminate.
  - reflexivity.
Defined.

Lemma distinct_exact_matches_give_distinct_titles_witness :
  title <$> _get_recommendations_from_trained_model (rt := Example.runtime)
              Example.titans "attack on titan" "anime" 12
  = ["Attack on Titan"; "Attack No More"; "Titanfall"] ∧
  NoDup (title <$> _get_recommendations_from_trained_model (rt := Example.runtime)
                     Example.titans "attack on titan" "anime" 12).
Proof.
  split; [vm_compute; reflexivity|].
  destruct (tier_results (rt := Example.runtime)
              (Example.table ["Attack on Titan"; "Attack No More"; "Titanfall"])
              (Str.strip (Str.lower "attack on titan")) "anime" 12) as [results|] eqn:Ht;
    [|vm_compute in Ht; discriminate].
  apply (distinct_exact_matches_give_distinct_titles (rt := Example.runtime)
           Example.titans "attack on titan" "anime" 12 _ _ "Name" results
           eq_refl eq_refl eq_refl ltac:(discriminate) Ht).
  vm_compute. apply NoDup_singleton.
Defined.

(** ** The quick searches *)

Lemma lower_split t a b :
  Str.lower t = a +:+ b → ∃ t1 t2, t = t1 +:+ t2 ∧ Str.lower t1 = a ∧ Str.lower t2 = b.
Proof.
  revert t. induction a as [|c a IH]; intros t H.
  - by exists "", t.
  - destruct t as [|x t]; [discriminate|]. rewrite app_cons in H. cbn [Str.lower] in H.
    injection H as Hc H. destruct (IH _ H) as (t1 & t2 & -> & <- & <-).
    exists (String x t1), t2. by rewrite app_cons, <- Hc.
Qed.

Lemma contains_lower_ci t k : Str.contains (Str.lower t) k = true → contains_ci t k.
Proof.
  intros (pre & post & H)%contains_spec.
  apply lower_split in H as (t1 & t23 & -> & _ & H).
  apply lower_split in H as (t2 & t3 & -> & Hk & _). by exists t1, t2, t3.
Qed.

Lemma contains_empty s : Str.contains s "" = true.
Proof. by destruct s. Qed.

Lemma filter_all {A} (f : A → bool) (xs : list A) :
  (∀ x, f x = true) → List.filter f xs = xs.
Proof. intros Hf. induction xs as [|x xs IH]; [done|]. cbn. by rewrite Hf, IH. Qed.

(** The hits are determined by the list and the property. *)
Lemma selects_unique {A} (P : A → Prop) (xs hits hits' : list A) :
  selects P xs hits → selects P xs hits' → hits = hits'.
Proof.
  intros H. revert hits'. induction H as [|x xs hits Hx _ IH|x xs hits Hx _ IH];
    intros hits' H'; inversion H' as [|? ? rest ? Hrest|? ? rest ? Hrest]; subst;
    try done.
  - by rewrite (IH _ Hrest).
  - by apply IH.
Qed.

Lemma filter_selects {A} (f : A → bool) (P : A → Prop) (xs : list A) :
  (∀ x, f x = true ↔ P x) → selects P xs (List.filter f xs).
Proof.
  intros Hf. induction xs as [|x xs IH]; [constructor|]. cbn [List.filter].
  destruct (f x) eqn:Hx.
  - constructor; [by apply Hf|done].
  - constructor; [|done]. intros HP%Hf. congruence.
Qed.

(** X19.  For ASCII text, that is an ASCII query and start-up items with
    ASCII titles: the hits of a quick search are the items of the start-up
    list whose title contains the trimmed query in any letter case, all of
    them and in the order of the list.  The answer holds the first 50 hits,
    and [total] is the number of hits, returned or not. *)
Theorem quick_search_hits (search : list item → string → listing)
    (popular_items : list item) (query : string) :
  search = api_anime_search ∨ search = api_games_search →
  Str.is_ascii query = true → ascii_titles popular_items = true →
  let q := Str.lower (Str.strip query) in
  let answer := search popular_items query in
  ∃ hits,
    selects (fun it => contains_ci (title it) q) popular_items hits ∧
    listing_data answer = take 50 hits ∧
    listing_total answer = len hits.
Proof.
  intros Hsearch _ _. cbv zeta.
  assert (search popular_items query = api_anime_search popular_items query) as ->
    by (by destruct Hsearch as [-> | ->]).
  unfold api_anime_search. cbv zeta. cbn [listing_data listing_total].
  set (q := Str.lower (Str.strip query)).
  exists (List.filter (fun i => Str.contains (Str.lower (title i)) q) popular_items).
  split; [|by split]. apply filter_selects. intros it. split.
  - apply contains_lower_ci.
  - apply contains_ci_lower.
Qed.

Lemma quick_search_hits_witness :
  let answer := api_games_search Example.shelf " NAR " in
  (api_games_search = api_anime_search ∨ api_games_search = api_games_search) ∧
  Str.is_ascii " NAR " = true ∧ ascii_titles Example.shelf = true ∧
  title <$> listing_data answer = ["Naruto"] ∧
  ∃ hits,
    selects (fun it => contains_ci (title it) (Str.lower (Str.strip " NAR ")))
            Example.shelf hits ∧
    listing_data answer = take 50 hits ∧
    listing_total answer = len hits.
Proof.
  cbv zeta.
  assert (api_games_search = api_anime_search ∨ api_games_search = api_games_search) as H
    by (by right).
  assert (Str.is_ascii " NAR " = true) as Hq by reflexivity.
  assert (ascii_titles Example.shelf = true) as Hitems by reflexivity.
  split; [exact H|]. split; [exact Hq|]. split; [exact Hitems|]. split; [reflexivity|].
  exact (quick_search_hits api_games_search Example.shelf " NAR " H Hq Hitems).
Defined.

(** X20.  A query of white space only selects every item: the quick search
    returns the first 50 items of the start-up list, and [total] is the size
    of the list. *)
Theorem blank_quick_search_lists_everything (popular_items : list item) (query : string) :
  Str.strip query = "" →
  api_anime_search popular_items query
  = {| listing_data := take 50 popular_items; listing_total := len popular_items |} ∧
  api_games_search popular_items query = api_anime_search popular_items query.
Proof.
  intros Hq. split; [|reflexivity]. unfold api_anime_search. cbv zeta. rewrite Hq.
  cbn [Str.lower]. rewrite filter_all; [done|]. intros it. apply contains_empty.
Qed.

Lemma blank_quick_search_lists_everything_witness :
  Str.strip "  " = "" ∧
  api_anime_search Example.shelf "  "
  = {| listing_data := take 50 Example.shelf; listing_total := len Example.shelf |} ∧
  api_games_search Example.shelf "  " = api_anime_search Example.shelf "  ".
Proof.
  assert (Str.strip "  " = "") as H by reflexivity.
  split; [exact H|]. exact (blank_quick_search_lists_everything _ _ H).
Defined.

(** ** The enrichment of the popular anime *)

Section EnrichmentFacts.
Variable requests : bool.
Variable jikan : nat → string → http_outcome.

Lemma one_request_at_most title w :
  (lookups (_get_anime_image_url requests jikan title w).2 ≤ S (lookups w))%nat.
Proof.
  pose proof (image_lookup_cases requests jikan title w) as H.
  destruct (_get_anime_image_url requests jikan title w) as [r w']. cbn [snd].
  destruct H as [[-> _]|(_ & _ & _ & -> & _)]; lia.
Qed.

Lemma enrich_images_spec data w :
  Forall2 image_filled data (enrich_images requests jikan data w).1 ∧
  (lookups (enrich_images requests jikan data w).2 ≤ lookups w + without_image data)%nat.
Proof.
  revert w. induction data as [|it rest IH]; intros w; cbn [enrich_images].
  { split; [constructor|]. cbn. lia. }
  unfold without_image. cbn [List.filter].
  destruct (truthy (image_url it)) eqn:Himg; cbn [negb].
  - destruct (IH w) as [IH1 IH2].
    destruct (enrich_images requests jikan rest w) as [rest' w']. cbn [fst snd] in *.
    split; [constructor; [by left|done]|done].
  - pose proof (one_request_at_most (title it) w) as Hone.
    destruct (_get_anime_image_url requests jikan (title it) w) as [url w1].
    cbn [snd] in Hone. destruct (IH w1) as [IH1 IH2].
    destruct (enrich_images requests jikan rest w1) as [rest' w']. cbn [fst snd] in *.
    split.
    + constructor; [|done]. destruct url as [url|]; [|by left].
      destruct (String.eqb_spec url ""); [by left|]. right. split; [done|]. by exists url.
    + unfold without_image in IH2. cbn [length]. lia.
Qed.

Lemma enrich_images_nothing_missing data w :
  without_image data = 0%nat → enrich_images requests jikan data w = (data, w).
Proof.
  induction data as [|it rest IH]; [done|]. unfold without_image. cbn [List.filter enrich_images].
  destruct (truthy (image_url it)); cbn [negb]; [|discriminate].
  intros H. by rewrite (IH H).
Qed.

End EnrichmentFacts.

(** X21.  [api_anime_popular] answers with the first 25 items of the
    start-up list, each one unchanged or with its missing image filled in by
    a URL that is not empty: an image that is there is never overwritten, and
    no other field changes.  What it fills in stays in the list.  It issues
    at most one request for each of these items that has no image. *)
Theorem popular_anime_images_are_filled_in (requests : bool)
    (jikan : nat → string → http_outcome) (anime_popular : list item) (w : world) :
  let '(answer, anime_popular', w') := api_anime_popular requests jikan anime_popular w in
  Forall2 image_filled (take 25 anime_popular) (listing_data answer) ∧
  listing_total answer = len (listing_data answer) ∧ listing_total answer ≤ 25 ∧
  anime_popular' = listing_data answer ++ drop 25 anime_popular ∧
  length anime_popular' = length anime_popular ∧
  (lookups w' ≤ lookups w + without_image (take 25 anime_popular))%nat.
Proof.
  unfold api_anime_popular. change (py_take 25 anime_popular) with (take 25 anime_popular).
  destruct (enrich_images_spec requests jikan (take 25 anime_popular) w) as [Hfill Hreq].
  destruct (enrich_images requests jikan (take 25 anime_popular) w) as [data w'].
  cbn [fst snd listing_data listing_total] in *.
  pose proof (Forall2_length _ _ _ Hfill) as Hlen. rewrite length_take in Hlen.
  split; [done|]. split; [done|]. split; [unfold len; lia|]. split; [done|].
  split; [|done]. rewrite length_app, length_drop. lia.
Qed.

(** X22.  When each of the first 25 items of the start-up list has an image,
    [api_anime_popular] returns them as they are and touches neither the
    list nor the cache, and it issues no request. *)
Theorem popular_anime_with_images_is_left_alone (requests : bool)
    (jikan : nat → string → http_outcome) (anime_popular : list item) (w : world) :
  without_image (take 25 anime_popular) = 0%nat →
  api_anime_popular requests jikan anime_popular w
  = ({| listing_data := take 25 anime_popular;
        listing_total := len (take 25 anime_popular) |}, anime_popular, w).
Proof.
  intros H. unfold api_anime_popular.
  change (py_take 25 anime_popular) with (take 25 anime_popular).
  rewrite (enrich_images_nothing_missing _ _ _ _ H). by rewrite take_drop.
Qed.

Lemma popular_anime_with_images_is_left_alone_witness :
  let filled := (api_anime_popular true Example.online Example.shelf Example.empty_world).1.2 in
  image_url <$> filled
  = [PStr Example.cover; PStr "https://example.org/bleach.jpg"] ∧
  without_image (take 25 filled) = 0%nat ∧
  api_anime_popular true Example.offline filled Example.empty_world
  = ({| listing_data := take 25 filled; listing_total := len (take 25 filled) |},
     filled, Example.empty_world).
Proof.
  cbv zeta. split; [vm_compute; reflexivity|].
  assert (without_image
            (take 25 (api_anime_popular true Example.online Example.shelf
                        Example.empty_world).1.2) = 0%nat) as H
    by (vm_compute; reflexivity).
  split; [exact H|]. exact (popular_anime_with_images_is_left_alone _ _ _ _ H).
Defined.

(** ** Rows that cannot be formatted *)

(** X23.  Formatting raises for an anime row whose ["Popularity"] cell is
    missing (NaN or [None]), and for a row of another type whose
    ["user_reviews"] cell is: [int] accepts neither. *)
Theorem missing_count_makes_formatting_raise `{rt : PyRuntime}
    (it : gmap string pyval) (item_type col : string) (idx : Z) :
  let count := if String.eqb item_type "anime" then "Popularity" else "user_reviews" in
  it !! count = Some (PFloat nan) ∨ it !! count = Some PNone →
  ∃ e, _format_item it item_type col idx = Raises e.
Proof.
  cbv zeta. unfold _format_item, dict_get_or.
  destruct (String.eqb item_type "anime").
  - intros Hcount. destruct (anime_rating _ _) as [f|e]; [|by eexists].
    cbn [mbind result_bind]. destruct Hcount as [-> | ->]; by eexists.
  - intros Hcount. destruct (_convert_game_rating _) as [f|e]; [|by eexists].
    cbn [mbind result_bind]. destruct Hcount as [-> | ->]; by eexists.
Qed.

Lemma missing_count_makes_formatting_raise_witness :
  let row := <["Popularity" := PFloat nan]> (Example.anime_row 1 "Naruto") in
  (row !! "Popularity" = Some (PFloat nan) ∨ row !! "Popularity" = Some PNone) ∧
  _format_item (rt := Example.runtime) row "anime" "Name" 0 = Raises ValueError ∧
  ∃ e, _format_item (rt := Example.runtime) row "anime" "Name" 0 = Raises e.
Proof.
  cbv zeta.
  assert (<["Popularity" := PFloat nan]> (Example.anime_row 1 "Naruto") !! "Popularity"
          = Some (PFloat nan) ∨
          <["Popularity" := PFloat nan]> (Example.anime_row 1 "Naruto") !! "Popularity"
          = Some PNone) as H by (left; reflexivity).
  split; [exact H|]. split; [vm_compute; reflexivity|].
  exact (missing_count_makes_formatting_raise (rt := Example.runtime) _ "anime" "Name" 0 H).
Defined.

Lemma add_exact_raises `{rt : PyRuntime} item_type col matches results r e :
  r ∈ matches → _format_item r.2 item_type col r.1 = Raises e →
  ∃ e', add_exact item_type col matches results = Raises e'.
Proof.
  intros Hin Hr. revert results.
  induction matches as [|[idx it] matches IH]; intros results; [inversion Hin|].
  cbn [add_exact]. apply elem_of_cons in Hin as [->|Hin].
  - cbn [fst snd] in Hr. rewrite Hr. by eexists.
  - destruct (_format_item it item_type col idx); [|by eexists].
    cbn [mbind result_bind]. by apply IH.
Qed.

(** X24.  One exact match that cannot be formatted costs all the matches:
    when formatting raises for one of the first [limit] rows whose
    lower-cased title is the query, the matcher answers with the popular
    items alone. *)
Theorem unformattable_match_falls_back_to_popular `{rt : PyRuntime}
    (TRAINED_MODELS : gmap string model) (q item_type : string) (limit : Z)
    (m : model) (d : DataFrame) (col : string) (r : Z * gmap string pyval) (e : exc) :
  TRAINED_MODELS !! item_type = Some m → data m = Some d →
  title_column d = Some col →
  r ∈ py_take limit (select d col (String.eqb (Str.strip (Str.lower q)))) →
  _format_item r.2 item_type col r.1 = Raises e →
  _get_recommendations_from_trained_model TRAINED_MODELS q item_type limit
  = _get_popular_items TRAINED_MODELS item_type limit.
Proof.
  intros Hm Hd Hcol Hr He. unfold _get_recommendations_from_trained_model.
  rewrite Hm, Hd. destruct (String.eqb _ ""); [done|].
  assert (∃ e', tier_results d (Str.strip (Str.lower q)) item_type limit = Raises e')
    as [e' ->]; [|done].
  unfold tier_results. rewrite Hcol. destruct (negb _); [by eexists|]. unfold run_tiers.
  destruct (add_exact_raises item_type col _ [] r e Hr He) as [e' ->]. by eexists.
Qed.

Lemma unformattable_match_falls_back_to_popular_witness :
  title <$> _get_recommendations_from_trained_model (rt := Example.runtime)
              Example.unranked "naruto" "anime" 12 = ["Bleach"] ∧
  _get_recommendations_from_trained_model (rt := Example.runtime)
    Example.unranked "naruto" "anime" 12
  = _get_popular_items (rt := Example.runtime) Example.unranked "anime" 12.
Proof.
  split; [vm_compute; reflexivity|].
  apply (unformattable_match_falls_back_to_popular (rt := Example.runtime)
           Example.unranked "naruto" "anime" 12 _ _ "Name"
           (0, <["Popularity" := PFloat nan]> (Example.anime_row 1 "Naruto")) ValueError
           eq_refl eq_refl eq_refl).
  - vm_compute. apply list_elem_of_here.
  - vm_compute. reflexivity.
Defined.
